(** * fio-benchmarking-in-gce: the FIO result parser and aggregator

    A shallow embedding of [parser-script.py]: [parse_fio_output] (the
    Extractor), [generate_fio_filenames] and [main] (the Aggregator and the
    report layout), followed by the properties of the specification.

    Python values are dynamically typed, so the embedding works over a
    universe [pyval] of the values [json.load] can build, and every
    operation that can raise returns a [result].  A Python [float] is an
    IEEE 754 binary64 number: it is modelled by [spec_float] with the
    operations of [SpecFloat] at precision 53 and maximal exponent 1024,
    which are ordinary functions and evaluate inside Rocq. *)

From Stdlib Require Import ZArith List String Ascii Bool Lia.
From Stdlib Require Import DecimalString DecimalPos DecimalZ.
From Stdlib Require Import Floats.SpecFloat.
From Stdlib Require Import Sorting.Sorted.
Import ListNotations.
Open Scope string_scope.
Open Scope Z_scope.

(** ** Exceptions and results *)

(** The exception classes the script can meet.  [ValueError] carries its
    message, since [generate_fio_filenames] raises it with a descriptive
    text; [OSError] stands for every [OSError] other than
    [FileNotFoundError] ([PermissionError], [IsADirectoryError], ...). *)
Inductive exn : Type :=
| FileNotFoundError
| OSError
| JSONDecodeError
| UnicodeDecodeError
| TypeError
| AttributeError
| KeyError
| IndexError
| OverflowError
| ZeroDivisionError
| ValueError (msg : string).

Inductive result (A : Type) : Type :=
| Ok (a : A)
| Raise (e : exn).
Arguments Ok {A} a.
Arguments Raise {A} e.

Definition rbind {A B : Type} (r : result A) (k : A -> result B) : result B :=
  match r with
  | Ok a => k a
  | Raise e => Raise e
  end.

Declare Scope py_scope.
Delimit Scope py_scope with py.
Notation "x <- c ;; k" := (rbind c (fun x => k))
  (at level 61, c at next level, right associativity) : py_scope.
Open Scope py_scope.

(** ** binary64 *)

Module F64.
Definition prec : Z := 53.
Definition emax : Z := 1024.

Definition add : spec_float -> spec_float -> spec_float := SFadd prec emax.
Definition sub : spec_float -> spec_float -> spec_float := SFsub prec emax.
Definition mul : spec_float -> spec_float -> spec_float := SFmul prec emax.
Definition div : spec_float -> spec_float -> spec_float := SFdiv prec emax.
Definition sqrt : spec_float -> spec_float := SFsqrt prec emax.
Definition ltb : spec_float -> spec_float -> bool := SFltb.

(** The nearest binary64 number to an integer (ties to even); an
    infinity when the integer is out of range. *)
Definition of_Z (z : Z) : spec_float := binary_normalize prec emax z 0 false.

Definition is_inf (f : spec_float) : bool :=
  match f with S754_infinity _ => true | _ => false end.

Definition is_zero (f : spec_float) : bool :=
  match f with S754_zero _ => true | _ => false end.

Definition is_finite (f : spec_float) : bool :=
  match f with S754_zero _ | S754_finite _ _ _ => true | _ => false end.
End F64.

(** ** Python values *)

#[local] Set Warnings "-register-all".

Inductive pyval : Type :=
| PyNone
| PyBool (b : bool)
| PyInt (z : Z)
| PyFloat (f : spec_float)
| PyStr (s : string)
| PyList (l : list pyval)
| PyDict (d : list (string * pyval)).

(** A [dict] keeps its insertion order; it is an association list, read by
    the first binding of a key and written in place.  The dicts that
    [json.load] and the script build bind a key once, and [dict_set]
    keeps it so. *)
Section Dict.
Context {V : Type}.

Fixpoint dict_lookup (k : string) (d : list (string * V)) : option V :=
  match d with
  | [] => None
  | (k', v) :: d' => if String.eqb k k' then Some v else dict_lookup k d'
  end.

Definition dict_mem (k : string) (d : list (string * V)) : bool :=
  match dict_lookup k d with Some _ => true | None => false end.

(** [d.get(k, dflt)] *)
Definition dict_get (k : string) (dflt : V) (d : list (string * V)) : V :=
  match dict_lookup k d with Some v => v | None => dflt end.

(** [d[k] = v] *)
Fixpoint dict_set (k : string) (v : V) (d : list (string * V)) : list (string * V) :=
  match d with
  | [] => [(k, v)]
  | (k', v') :: d' =>
      if String.eqb k k' then (k', v) :: d' else (k', v') :: dict_set k v d'
  end.

Definition dict_keys (d : list (string * V)) : list string := map fst d.

(** [d.update(d2)] *)
Definition dict_update (d d2 : list (string * V)) : list (string * V) :=
  fold_left (fun acc kv => dict_set (fst kv) (snd kv) acc) d2 d.
End Dict.

(** Truth value of an object, as [if x:] tests it. *)
Definition truthy (v : pyval) : bool :=
  match v with
  | PyNone => false
  | PyBool b => b
  | PyInt z => negb (z =? 0)
  | PyFloat f => negb (F64.is_zero f)
  | PyStr s => negb (String.eqb s "")
  | PyList l => match l with [] => false | _ => true end
  | PyDict d => match d with [] => false | _ => true end
  end.

(** *** Numbers *)

(** [float(z)] for an [int]: [OverflowError] when it is out of range. *)
Definition float_of_int (z : Z) : result spec_float :=
  let f := F64.of_Z z in
  if F64.is_inf f then Raise OverflowError else Ok f.

Inductive number : Type :=
| NInt (z : Z)
| NFloat (f : spec_float).

(** [bool] is a subclass of [int]. *)
Definition as_number (v : pyval) : option number :=
  match v with
  | PyBool b => Some (NInt (if b then 1 else 0))
  | PyInt z => Some (NInt z)
  | PyFloat f => Some (NFloat f)
  | _ => None
  end.

Definition number_to_float (n : number) : result spec_float :=
  match n with
  | NInt z => float_of_int z
  | NFloat f => Ok f
  end.

(** Binary arithmetic on numbers: integers stay integers, and an integer
    meeting a float is converted first. *)
Definition num_binop (fz : Z -> Z -> Z) (ff : spec_float -> spec_float -> spec_float)
  (a b : number) : result pyval :=
  match a, b with
  | NInt x, NInt y => Ok (PyInt (fz x y))
  | _, _ =>
      x <- number_to_float a ;;
      y <- number_to_float b ;;
      Ok (PyFloat (ff x y))
  end.

(** [a + b] *)
Definition py_add (a b : pyval) : result pyval :=
  match as_number a, as_number b with
  | Some x, Some y => num_binop Z.add F64.add x y
  | _, _ =>
      match a, b with
      | PyStr s, PyStr t => Ok (PyStr (s ++ t))
      | PyList l, PyList m => Ok (PyList (l ++ m)%list)
      | _, _ => Raise TypeError
      end
  end.

(** [a - b] *)
Definition py_sub (a b : pyval) : result pyval :=
  match as_number a, as_number b with
  | Some x, Some y => num_binop Z.sub F64.sub x y
  | _, _ => Raise TypeError
  end.

(** [x / y] for two integers: the quotient rounded once to the nearest
    binary64 number. *)
Definition int_truediv (a b : Z) : result spec_float :=
  if b =? 0 then Raise ZeroDivisionError
  else
    let s := xorb (a <? 0) (b <? 0) in
    let a' := Z.abs a in
    let b' := Z.abs b in
    if a' =? 0 then Ok (S754_zero s)
    else
      let k := Z.max 0 (56 + Zdigits2 b' - Zdigits2 a') in
      let '(q, r) := Z.div_eucl (Z.shiftl a' k) b' in
      let f := binary_round_aux F64.prec F64.emax s q (- k) (new_location b' r) in
      if F64.is_inf f then Raise OverflowError else Ok f.

(** [a / b] *)
Definition py_truediv (a b : pyval) : result pyval :=
  match as_number a, as_number b with
  | Some (NInt x), Some (NInt y) =>
      f <- int_truediv x y ;; Ok (PyFloat f)
  | Some x, Some y =>
      fx <- number_to_float x ;;
      fy <- number_to_float y ;;
      if F64.is_zero fy then Raise ZeroDivisionError
      else Ok (PyFloat (F64.div fx fy))
  | _, _ => Raise TypeError
  end.

(** [a ** 2].  For floats the C library's [pow] is taken to return the
    correctly rounded square; Python turns an overflow of finite operands
    into [OverflowError]. *)
Definition py_pow2 (a : pyval) : result pyval :=
  match as_number a with
  | Some (NInt x) => Ok (PyInt (x * x))
  | Some (NFloat f) =>
      let r := F64.mul f f in
      if F64.is_finite f && F64.is_inf r then Raise OverflowError
      else Ok (PyFloat r)
  | None => Raise TypeError
  end.

(** [math.sqrt(a)] *)
Definition math_sqrt (a : pyval) : result pyval :=
  match as_number a with
  | Some n =>
      f <- number_to_float n ;;
      if F64.ltb f (S754_zero false) then Raise (ValueError "math domain error")
      else Ok (PyFloat (F64.sqrt f))
  | None => Raise TypeError
  end.

(** *** Comparison *)

(** An integer against a binary64 number, compared exactly (Python never
    rounds the integer for a comparison). *)
Definition int_float_compare (z : Z) (f : spec_float) : option comparison :=
  match f with
  | S754_nan => None
  | S754_infinity s => Some (if s then Gt else Lt)
  | S754_zero _ => Some (z ?= 0)
  | S754_finite s m e =>
      let v := cond_Zopp s (Zpos m) in
      Some (if 0 <=? e then z ?= v * 2 ^ e else z * 2 ^ (- e) ?= v)
  end.

Definition num_compare (a b : number) : option comparison :=
  match a, b with
  | NInt x, NInt y => Some (x ?= y)
  | NFloat f, NFloat g => SFcompare f g
  | NInt x, NFloat g => int_float_compare x g
  | NFloat f, NInt y => option_map CompOpp (int_float_compare y f)
  end.

(** [a < b].  Numbers and strings are ordered.  Python also orders two
    lists; no list reaches a comparison in this script (every value of a
    series has gone through the [.2f] format before, which only numbers
    pass), and the embedding does not order them. *)
Definition py_lt (a b : pyval) : result bool :=
  match as_number a, as_number b with
  | Some x, Some y =>
      Ok (match num_compare x y with Some Lt => true | _ => false end)
  | _, _ =>
      match a, b with
      | PyStr s, PyStr t => Ok (String.ltb s t)
      | _, _ => Raise TypeError
      end
  end.

(** [a > b] *)
Definition py_gt (a b : pyval) : result bool := py_lt b a.

(** *** Built-in reductions *)

Fixpoint sum_from (acc : pyval) (l : list pyval) : result pyval :=
  match l with
  | [] => Ok acc
  | x :: l' => s <- py_add acc x ;; sum_from s l'
  end.

(** [sum(l)]: the items are added from left to right, starting from the
    integer 0, each addition rounded as [+] rounds it.  (CPython 3.12 and
    later carry a compensation term through a sum of floats, which can
    move the last bit of the total; the embedding keeps the plain sum.) *)
Definition py_sum (l : list pyval) : result pyval := sum_from (PyInt 0) l.

Fixpoint min_from (m : pyval) (l : list pyval) : result pyval :=
  match l with
  | [] => Ok m
  | x :: l' => b <- py_lt x m ;; min_from (if b then x else m) l'
  end.

(** [min(l)]: the first of the smallest items. *)
Definition py_min (l : list pyval) : result pyval :=
  match l with
  | [] => Raise (ValueError "min() arg is an empty sequence")
  | x :: l' => min_from x l'
  end.

Fixpoint max_from (m : pyval) (l : list pyval) : result pyval :=
  match l with
  | [] => Ok m
  | x :: l' => b <- py_gt x m ;; max_from (if b then x else m) l'
  end.

(** [max(l)]: the first of the largest items. *)
Definition py_max (l : list pyval) : result pyval :=
  match l with
  | [] => Raise (ValueError "max() arg is an empty sequence")
  | x :: l' => max_from x l'
  end.

(** [result]-valued map, stopping at the first exception. *)
Fixpoint mapM {A B : Type} (f : A -> result B) (l : list A) : result (list B) :=
  match l with
  | [] => Ok []
  | x :: l' => y <- f x ;; ys <- mapM f l' ;; Ok (y :: ys)
  end.

(** *** Strings and formatting *)

Definition nl : string := String (ascii_of_nat 10) EmptyString.

(** [str(z)] for an [int]. *)
Definition str_of_int (z : Z) : string := NilZero.string_of_int (Z.to_int z).

Definition round_half_even (num den : Z) : Z :=
  let q := num / den in
  match 2 * (num mod den) ?= den with
  | Lt => q
  | Gt => q + 1
  | Eq => if Z.even q then q else q + 1
  end.

(** A sign and a count of hundredths, printed with two decimals. *)
Definition fixed2 (neg : bool) (hundredths : Z) : string :=
  let frac := hundredths mod 100 in
  (if neg then "-" else "") ++ str_of_int (hundredths / 100) ++ "."
    ++ (if frac <? 10 then "0" else "") ++ str_of_int frac.

(** [format(f, '.2f')] for a float: the exact binary value rounded to the
    nearest hundredth, ties to even. *)
Definition format_float_2f (f : spec_float) : string :=
  match f with
  | S754_nan => "nan"
  | S754_infinity s => if s then "-inf" else "inf"
  | S754_zero s => fixed2 s 0
  | S754_finite s m e =>
      fixed2 s (if 0 <=? e then Zpos m * 2 ^ e * 100
                else round_half_even (Zpos m * 100) (2 ^ (- e)))
  end.

(** [f"{v:.2f}"]: an [int] (or [bool]) is converted to [float] first; a
    string has no format code [f]; the other types take no format string. *)
Definition py_format_2f (v : pyval) : result string :=
  match as_number v with
  | Some n => f <- number_to_float n ;; Ok (format_float_2f f)
  | None =>
      match v with
      | PyStr _ =>
          Raise (ValueError "Unknown format code 'f' for object of type 'str'")
      | _ => Raise TypeError
      end
  end.

Definition is_upper (c : ascii) : bool :=
  let n := nat_of_ascii c in (Nat.leb 65 n && Nat.leb n 90)%nat.

Definition is_lower (c : ascii) : bool :=
  let n := nat_of_ascii c in (Nat.leb 97 n && Nat.leb n 122)%nat.

Definition to_upper (c : ascii) : ascii :=
  if is_lower c then ascii_of_nat (nat_of_ascii c - 32) else c.

Definition to_lower (c : ascii) : ascii :=
  if is_upper c then ascii_of_nat (nat_of_ascii c + 32) else c.

(** [s.replace('_', ' ')] *)
Fixpoint replace_underscores (s : string) : string :=
  match s with
  | EmptyString => EmptyString
  | String c s' =>
      String (if Ascii.eqb c "_" then " "%char else c) (replace_underscores s')
  end.

Fixpoint title_from (prev_cased : bool) (s : string) : string :=
  match s with
  | EmptyString => EmptyString
  | String c s' =>
      let cased := is_upper c || is_lower c in
      String (if cased then (if prev_cased then to_lower c else to_upper c) else c)
             (title_from cased s')
  end.

(** [s.title()] on ASCII text (the metric names are ASCII literals of the
    script): a letter that follows a letter is lowered, any other letter is
    raised. *)
Definition title (s : string) : string := title_from false s.

(** [metric_name.replace('_', ' ').title()] *)
Definition display_name (metric_name : string) : string :=
  title (replace_underscores metric_name).

Fixpoint contains (needle s : string) : bool :=
  String.prefix needle s
  || match s with
     | EmptyString => false
     | String _ s' => contains needle s'
     end.

Fixpoint basename_from (cur : string) (s : string) : string :=
  match s with
  | EmptyString => cur
  | String c s' =>
      if Ascii.eqb c "/" then basename_from s' s' else basename_from cur s'
  end.

(** [os.path.basename(p)]: what follows the last slash. *)
Definition basename (p : string) : string := basename_from p p.

(** *** Containers *)

(** ['k' in v]: a key of a dict, an item of a list, a substring of a
    string; the other types are not containers. *)
Definition py_contains (k : string) (v : pyval) : result bool :=
  match v with
  | PyDict d => Ok (dict_mem k d)
  | PyList l =>
      Ok (existsb (fun x => match x with PyStr s => String.eqb s k | _ => false end) l)
  | PyStr s => Ok (contains k s)
  | _ => Raise TypeError
  end.

(** [v['k']] with a string key: only a dict is indexed by a string. *)
Definition py_getitem (k : string) (v : pyval) : result pyval :=
  match v with
  | PyDict d =>
      match dict_lookup k d with Some x => Ok x | None => Raise KeyError end
  | _ => Raise TypeError
  end.

(** [len(v) > 0] *)
Definition py_len_positive (v : pyval) : result bool :=
  match v with
  | PyList l => Ok (match l with [] => false | _ => true end)
  | PyDict d => Ok (match d with [] => false | _ => true end)
  | PyStr s => Ok (negb (String.eqb s ""))
  | _ => Raise TypeError
  end.

(** [v[0]]: the first item of a list or the first character of a string;
    a dict loaded from JSON has string keys only, so 0 is never a key. *)
Definition py_getitem0 (v : pyval) : result pyval :=
  match v with
  | PyList l => match l with x :: _ => Ok x | [] => Raise IndexError end
  | PyStr s =>
      match s with
      | String c _ => Ok (PyStr (String c EmptyString))
      | EmptyString => Raise IndexError
      end
  | PyDict _ => Raise KeyError
  | _ => Raise TypeError
  end.

(** [v.get(k, dflt)]: only a dict has the method. *)
Definition py_get (k : string) (dflt : pyval) (v : pyval) : result pyval :=
  match v with
  | PyDict d => Ok (dict_get k dflt d)
  | _ => Raise AttributeError
  end.

(** ** Effects: console lines, file reads, the report write *)

(** What the script does to the outside world, in order: a line printed on
    the console, a run document opened for reading, the report written. *)
Inductive event : Type :=
| Print (line : string)
| OpenRead (path : string)
| WriteCsv (path : string) (rows : list (list string)).

(** A computation: the events it produced, and its value or the exception
    that ended it. *)
Definition M (A : Type) : Type := (list event * result A)%type.

Definition mret {A : Type} (a : A) : M A := ([], Ok a).

Definition mbind {A B : Type} (m : M A) (k : A -> M B) : M B :=
  match m with
  | (l, Ok a) => let '(l', r) := k a in ((l ++ l')%list, r)
  | (l, Raise e) => (l, Raise e)
  end.

Definition emit (e : event) : M unit := ([e], Ok tt).
Definition print (line : string) : M unit := emit (Print line).
Definition lift {A : Type} (r : result A) : M A := ([], r).

Notation "x <~ c ;; k" := (mbind c (fun x => k))
  (at level 61, c at next level, right associativity) : py_scope.
Notation "c ;;; k" := (mbind c (fun _ => k))
  (at level 61, right associativity) : py_scope.

(** The file system and the JSON library, as the script sees them:
    [fs_read p] is what [open(p, 'r')] followed by [json.load] gives, a
    loaded value or the exception raised; [fs_write p] is [None] when the
    report can be opened for writing and the text of the [IOError]
    otherwise. *)
Record world : Type := {
  fs_read : string -> result pyval;
  fs_write : string -> option string
}.

(** ** The Extractor: [parse_fio_output] *)

Definition metrics_t : Type := list (string * pyval).
Definition units_t : Type := list (string * string).

Definition f1 : spec_float := Eval vm_compute in F64.of_Z 1.
Definition f1000 : spec_float := Eval vm_compute in F64.of_Z 1000.
Definition f1024 : spec_float := Eval vm_compute in F64.of_Z 1024.
Definition f1000000 : spec_float := Eval vm_compute in F64.of_Z 1000000.

(** [job_data.get(side, {}).get(field, dflt)] *)
Definition sub_get (job_data : pyval) (side field : string) (dflt : pyval)
  : result pyval :=
  s <- py_get side (PyDict []) job_data ;;
  py_get field dflt s.

(** [job_data[side][field]] *)
Definition sub_item (job_data : pyval) (side field : string) : result pyval :=
  s <- py_getitem side job_data ;;
  py_getitem field s.

(** One arm of the latency chain: the test
    [job_data.get(side, {}).get(field)]. *)
Definition latency_test (job_data : pyval) (side field : string) : result bool :=
  v <- sub_get job_data side field PyNone ;;
  Ok (truthy v).

(** The [if]/[elif] chain of lines 54-72: [latency_data] and
    [conversion_factor] when it ends; they start as [None] and [1.0]. *)
Definition select_latency (job_data : pyval) : result (pyval * spec_float) :=
  b <- latency_test job_data "read" "lat_ns" ;;
  if b then l <- sub_item job_data "read" "lat_ns" ;; Ok (l, f1000000) else
  b <- latency_test job_data "read" "lat_us" ;;
  if b then l <- sub_item job_data "read" "lat_us" ;; Ok (l, f1000) else
  b <- latency_test job_data "read" "lat_ms" ;;
  if b then l <- sub_item job_data "read" "lat_ms" ;; Ok (l, f1) else
  b <- latency_test job_data "write" "lat_ns" ;;
  if b then l <- sub_item job_data "write" "lat_ns" ;; Ok (l, f1000000) else
  b <- latency_test job_data "write" "lat_us" ;;
  if b then l <- sub_item job_data "write" "lat_us" ;; Ok (l, f1000) else
  b <- latency_test job_data "write" "lat_ms" ;;
  if b then l <- sub_item job_data "write" "lat_ms" ;; Ok (l, f1) else
  Ok (PyNone, f1).

(** Lines 32-90: the metrics of one job entry, written into the two
    dictionaries in the order of the source. *)
Definition extract_job (job_data : pyval) (metrics : metrics_t) (units : units_t)
  : result (metrics_t * units_t) :=
  (* CPU usage *)
  usr <- py_get "usr_cpu" (PyInt 0) job_data ;;
  let metrics := dict_set "cpu_usr" usr metrics in
  let units := dict_set "cpu_usr" "%" units in
  sys <- py_get "sys_cpu" (PyInt 0) job_data ;;
  let metrics := dict_set "cpu_sys" sys metrics in
  let units := dict_set "cpu_sys" "%" units in
  total <- py_add usr sys ;;
  let metrics := dict_set "cpu_total" total metrics in
  let units := dict_set "cpu_total" "%" units in
  (* bandwidth *)
  read_bw <- sub_get job_data "read" "bw" (PyInt 0) ;;
  write_bw <- sub_get job_data "write" "bw" (PyInt 0) ;;
  bw_sum <- py_add read_bw write_bw ;;
  bw <- py_truediv bw_sum (PyFloat f1024) ;;
  let metrics := dict_set "bandwidth" bw metrics in
  let units := dict_set "bandwidth" "MiB/s" units in
  (* latency *)
  let latency_unit := "ms" in
  sel <- select_latency job_data ;;
  let '(latency_data, conversion_factor) := sel in
  lat <-
    (if truthy latency_data then
       mean <- py_get "mean" (PyInt 0) latency_data ;;
       avg <- py_truediv mean (PyFloat conversion_factor) ;;
       let metrics := dict_set "avg_latency" avg metrics in
       let units := dict_set "avg_latency" latency_unit units in
       stddev <- py_get "stddev" (PyInt 0) latency_data ;;
       sd <- py_truediv stddev (PyFloat conversion_factor) ;;
       let metrics := dict_set "stdev_latency" sd metrics in
       let units := dict_set "stdev_latency" latency_unit units in
       Ok (metrics, units)
     else
       let metrics := dict_set "avg_latency" (PyInt 0) metrics in
       let units := dict_set "avg_latency" "N/A" units in
       let metrics := dict_set "stdev_latency" (PyInt 0) metrics in
       let units := dict_set "stdev_latency" "N/A" units in
       Ok (metrics, units)) ;;
  let '(metrics, units) := lat in
  (* IOPS *)
  read_iops <- sub_get job_data "read" "iops" (PyInt 0) ;;
  write_iops <- sub_get job_data "write" "iops" (PyInt 0) ;;
  iops <- py_add read_iops write_iops ;;
  let metrics := dict_set "iops" iops metrics in
  let units := dict_set "iops" "ops/s" units in
  Ok (metrics, units).

(** Lines 28-92: what follows a successful load.  The condition is
    ['jobs' in data and len(data['jobs']) > 0], evaluated left to right. *)
Definition extract (data : pyval) : result (metrics_t * units_t) :=
  let metrics : metrics_t := [] in
  let units : units_t := [] in
  has_jobs <- py_contains "jobs" data ;;
  cond <- (if has_jobs
           then jobs <- py_getitem "jobs" data ;; py_len_positive jobs
           else Ok false) ;;
  if cond then
    jobs <- py_getitem "jobs" data ;;
    job_data <- py_getitem0 jobs ;;
    extract_job job_data metrics units
  else Ok (metrics, units).

(** [parse_fio_output(file_path)].  The [try] catches [FileNotFoundError]
    and [json.JSONDecodeError] and nothing else. *)
Definition parse_fio_output (w : world) (file_path : string)
  : M (metrics_t * units_t) :=
  emit (OpenRead file_path) ;;;
  match fs_read w file_path with
  | Raise FileNotFoundError =>
      print ("Error: File not found at " ++ file_path) ;;;
      mret ([], [])
  | Raise JSONDecodeError =>
      print ("Error: Invalid JSON in " ++ file_path) ;;;
      mret ([], [])
  | Raise e => lift (Raise e)
  | Ok data => lift (extract data)
  end.

(** ** [generate_fio_filenames] *)

(** [range(1, n + 1)] *)
Definition range1 (n : Z) : list Z := map Z.of_nat (seq 1 (Z.to_nat n)).

(** [isinstance(v, int)] holds of a [bool] too, which then counts as 0 or
    1. *)
Definition generate_fio_filenames (num_iterations prefix : pyval)
  : result (list string) :=
  match (match num_iterations with
         | PyInt z => Some z
         | PyBool b => Some (if b then 1 else 0)
         | _ => None
         end) with
  | None => Raise (ValueError "num_iterations must be a positive integer.")
  | Some n =>
      if n <=? 0
      then Raise (ValueError "num_iterations must be a positive integer.")
      else
        match prefix with
        | PyStr p =>
            if String.eqb p ""
            then Raise (ValueError "prefix must be a non-empty string.")
            else Ok (map (fun i => p ++ str_of_int i ++ ".json") (range1 n))
        | _ => Raise (ValueError "prefix must be a non-empty string.")
        end
  end.

(** ** The Aggregator: [main] *)

(** The accumulators of [main] (lines 162-170).  [all_metrics] is a
    [defaultdict(list)]: a series per metric name.  A row of
    [individual_run_data] maps a column label to its cell; the ['Run'] cell
    holds the run number, which the csv writer prints with [str]. *)
Record acc : Type := {
  all_metrics : list (string * list pyval);
  global_units_map : units_t;
  avg_latency_values : list pyval;
  stdev_latency_values : list pyval;
  individual_run_data : list (list (string * string))
}.

Definition acc0 : acc :=
  {| all_metrics := [];
     global_units_map := [];
     avg_latency_values := [];
     stdev_latency_values := [];
     individual_run_data := [] |}.

(** [all_metrics[key].append(value)] *)
Definition series_append (key : string) (value : pyval)
  (am : list (string * list pyval)) : list (string * list pyval) :=
  dict_set key (dict_get key [] am ++ [value])%list am.

(** [f"{key} ({unit})"] *)
Definition column_label (key unit : string) : string :=
  key ++ " (" ++ unit ++ ")".

(** Lines 182-186: the loop over [metrics.items()].  The value is
    formatted for the console line and again, with the same outcome, for
    the cell. *)
Fixpoint record_items (units : units_t) (items : metrics_t)
  (am : list (string * list pyval)) (run_data : list (string * string))
  : M (list (string * list pyval) * list (string * string)) :=
  match items with
  | [] => mret (am, run_data)
  | (key, value) :: rest =>
      let unit := dict_get key "" units in
      txt <~ lift (py_format_2f value) ;;
      print ("    " ++ key ++ ": " ++ txt ++ " " ++ unit) ;;;
      let am := series_append key value am in
      let run_data := dict_set (column_label key unit) txt run_data in
      record_items units rest am run_data
  end.

(** [name in metrics and units.get(name) != 'N/A'] *)
Definition latency_is_valid (name : string) (metrics : metrics_t) (units : units_t)
  : bool :=
  dict_mem name metrics
  && negb (match dict_lookup name units with
           | Some u => String.eqb u "N/A"
           | None => false
           end).

(** Lines 174-196: one turn of the loop over the run documents; [i] is the
    index [enumerate] gives, from 0. *)
Definition process_run (w : world) (st : acc) (i : nat) (file_path : string)
  : M acc :=
  print ("Parsing " ++ file_path ++ "...") ;;;
  mu <~ parse_fio_output w file_path ;;
  let '(metrics, units) := mu in
  match metrics with
  | _ :: _ =>
      let gum := dict_update (global_units_map st) units in
      print ("  Results from " ++ basename file_path ++ ":") ;;;
      let run_data := [("Run", str_of_int (Z.of_nat i + 1))] in
      r <~ record_items units metrics (all_metrics st) run_data ;;
      let '(am, run_data) := r in
      mret {| all_metrics := am;
              global_units_map := gum;
              avg_latency_values :=
                (if latency_is_valid "avg_latency" metrics units
                 then avg_latency_values st
                        ++ [dict_get "avg_latency" PyNone metrics]
                 else avg_latency_values st)%list;
              stdev_latency_values :=
                (if latency_is_valid "stdev_latency" metrics units
                 then stdev_latency_values st
                        ++ [dict_get "stdev_latency" PyNone metrics]
                 else stdev_latency_values st)%list;
              individual_run_data := (individual_run_data st ++ [run_data])%list |}
  | [] =>
      print ("  Could not extract metrics from " ++ file_path ++ ". Skipping.") ;;;
      mret st
  end.

Fixpoint process_runs (w : world) (st : acc) (i : nat) (files : list string)
  : M acc :=
  match files with
  | [] => mret st
  | file_path :: rest =>
      st' <~ process_run w st i file_path ;;
      process_runs w st' (S i) rest
  end.

(** Lines 213-216: the sample standard deviation of a series of length
    [n > 1] around [avg_value]. *)
Definition sample_stdev (values : list pyval) (avg_value : pyval) : result pyval :=
  sq <- mapM (fun x => d <- py_sub x avg_value ;; py_pow2 d) values ;;
  sum_sq_diff <- py_sum sq ;;
  q <- py_truediv sum_sq_diff (PyInt (Z.of_nat (List.length values) - 1)) ;;
  math_sqrt q.

(** Lines 207-227: the row of one metric in the summary table. *)
Definition summary_row (gum : units_t) (metric_name : string) (values : list pyval)
  : result (list string) :=
  match values with
  | [] => Ok [display_name metric_name; "No data"; "N/A"; "N/A"; "N/A"; "N/A"]
  | _ :: _ =>
      let n := Z.of_nat (List.length values) in
      s <- py_sum values ;;
      avg_value <- py_truediv s (PyInt n) ;;
      let unit := dict_get metric_name "" gum in
      min_value <- py_min values ;;
      max_value <- py_max values ;;
      stdev_value <- (if 1 <? n then sample_stdev values avg_value
                      else Ok (PyInt 0)) ;;
      avg_txt <- py_format_2f avg_value ;;
      stdev_txt <- (if 1 <? n then py_format_2f stdev_value else Ok "N/A") ;;
      min_txt <- py_format_2f min_value ;;
      max_txt <- py_format_2f max_value ;;
      Ok [display_name metric_name; avg_txt; stdev_txt; unit; min_txt; max_txt]
  end.

(** Lines 230-254: the row with the smallest and largest value of a
    latency metric over the runs that had one; no row without values. *)
Definition latency_row (label key : string) (gum : units_t) (values : list pyval)
  : result (list (list string)) :=
  match values with
  | [] => Ok []
  | _ :: _ =>
      mn <- py_min values ;;
      mx <- py_max values ;;
      let latency_unit := dict_get key "ms" gum in
      mn_txt <- py_format_2f mn ;;
      mx_txt <- py_format_2f mx ;;
      Ok [[label; ""; ""; latency_unit; mn_txt; mx_txt]]
  end.

Definition summary_header : list string :=
  ["Metric"; "Average"; "Std Dev"; "Unit"; "Min"; "Max"].

(** Lines 203-254: [aggregated_results]. *)
Definition aggregate (st : acc) : result (list (list string)) :=
  rows <- mapM (fun kv => summary_row (global_units_map st) (fst kv) (snd kv))
            (all_metrics st) ;;
  avg_rows <- latency_row "Average Latency" "avg_latency"
                (global_units_map st) (avg_latency_values st) ;;
  stdev_rows <- latency_row "Standard Deviation Latency" "stdev_latency"
                  (global_units_map st) (stdev_latency_values st) ;;
  Ok (summary_header :: rows ++ avg_rows ++ stdev_rows)%list.

(** Lines 265-269: the header of the per-run table, every label once, in
    the order met. *)
Fixpoint add_fieldnames (fieldnames keys : list string) : list string :=
  match keys with
  | [] => fieldnames
  | key :: rest =>
      add_fieldnames
        (if existsb (String.eqb key) fieldnames then fieldnames
         else fieldnames ++ [key])%list
        rest
  end.

Definition fieldnames_of (runs : list (list (string * string))) : list string :=
  fold_left (fun fieldnames row => add_fieldnames fieldnames (dict_keys row))
    runs ["Run"].

(** Line 274: [[row.get(key, '') for key in fieldnames]]. *)
Definition run_cells (fieldnames : list string) (row : list (string * string))
  : list string :=
  map (fun key => dict_get key "" row) fieldnames.

(** Lines 263-275: the "Individual Run Metrics" section. *)
Definition individual_section (runs : list (list (string * string)))
  : list (list string) :=
  match runs with
  | [] => []
  | _ :: _ =>
      let fieldnames := fieldnames_of runs in
      (["Individual Run Metrics"] :: fieldnames
         :: map (run_cells fieldnames) runs ++ [[]])%list
  end.

(** Lines 263-280: the rows handed to the csv writer. *)
Definition report_rows (runs : list (list (string * string)))
  (aggregated_results : list (list string)) : list (list string) :=
  (individual_section runs ++ ["Aggregated Metrics"] :: aggregated_results)%list.

(** The command line, once [argparse] has read it. *)
Record args : Type := {
  iterations : Z;
  output_filepath : string;
  csv_output : string
}.

(** [main()] *)
Definition main (w : world) (a : args) : M unit :=
  generated_fio_files <~
    lift (generate_fio_filenames (PyInt (iterations a)) (PyStr (output_filepath a))) ;;
  print (nl ++ "--- Parsing FIO Output Files ---") ;;;
  st <~ process_runs w acc0 0 generated_fio_files ;;
  match all_metrics st with
  | [] =>
      print "No metrics extracted from any FIO output files. Exiting."
  | _ :: _ =>
      aggregated_results <~ lift (aggregate st) ;;
      match fs_write w (csv_output a) with
      | None =>
          emit (WriteCsv (csv_output a)
                  (report_rows (individual_run_data st) aggregated_results)) ;;;
          print (nl ++ "Results successfully written to " ++ csv_output a)
      | Some err =>
          print ("Error writing to CSV file " ++ csv_output a ++ ": " ++ err)
      end ;;;
      print (nl ++ "Combined FIO benchmark and parsing script completed.")
  end.

(** ** The specification's vocabulary *)

(** The seven metric names of a run, in the order the Extractor writes
    them. *)
Definition metric_names : list string :=
  ["cpu_usr"; "cpu_sys"; "cpu_total"; "bandwidth"; "avg_latency";
   "stdev_latency"; "iops"].

(** The first job entry of a loaded document of the expected structure:
    an object whose ["jobs"] is a list that starts with an object. *)
Definition first_job (data : pyval) : option (list (string * pyval)) :=
  match data with
  | PyDict d =>
      match dict_lookup "jobs" d with
      | Some (PyList (PyDict j :: _)) => Some j
      | _ => None
      end
  | _ => None
  end.

(** The ["read"] or ["write"] object of a job: empty when absent. *)
Definition side_of (j : list (string * pyval)) (side : string)
  : option (list (string * pyval)) :=
  match dict_lookup side j with
  | None => Some []
  | Some (PyDict s) => Some s
  | Some _ => None
  end.

(** A field of a side, with its default when the side or the field is
    absent. *)
Definition field_or (dflt : pyval) (j : list (string * pyval))
  (side field : string) : pyval :=
  match side_of j side with
  | Some s => dict_get field dflt s
  | None => dflt
  end.

(** The six latency candidates in priority order, each with the factor
    that turns its unit into milliseconds. *)
Definition latency_candidates : list (string * string * spec_float) :=
  [("read", "lat_ns", f1000000); ("read", "lat_us", f1000); ("read", "lat_ms", f1);
   ("write", "lat_ns", f1000000); ("write", "lat_us", f1000); ("write", "lat_ms", f1)].

(** A candidate counts when it is present and non-empty. *)
Definition candidate (j : list (string * pyval)) (c : string * string * spec_float)
  : option (pyval * spec_float) :=
  let '(side, field, factor) := c in
  let v := field_or PyNone j side field in
  if truthy v then Some (v, factor) else None.

Fixpoint first_some {A B : Type} (f : A -> option B) (l : list A) : option B :=
  match l with
  | [] => None
  | x :: l' => match f x with Some y => Some y | None => first_some f l' end
  end.

(** The first candidate that counts. *)
Definition first_candidate (j : list (string * pyval)) : option (pyval * spec_float) :=
  first_some (candidate j) latency_candidates.

(** The series of a metric over runs: what each run that has the metric
    contributes, in run order. *)
Definition series_of (name : string) (runs : list metrics_t) : list pyval :=
  flat_map (fun m => match dict_lookup name m with Some v => [v] | None => [] end)
    runs.

(** The values of a latency metric over the runs whose unit for it is not
    ["N/A"]. *)
Definition valid_latencies (name : string) (runs : list (metrics_t * units_t))
  : list pyval :=
  flat_map (fun mu => if latency_is_valid name (fst mu) (snd mu)
                      then [dict_get name PyNone (fst mu)] else [])
    runs.

(** The labels of [l] that are not in [seen], each kept at its first
    occurrence. *)
Fixpoint first_seen (seen l : list string) : list string :=
  match l with
  | [] => []
  | x :: l' =>
      if existsb (String.eqb x) seen then first_seen seen l'
      else x :: first_seen (seen ++ [x]) l'
  end.

(** The column labels of a run: each metric name with its unit. *)
Definition labels_of (m : metrics_t) (u : units_t) : list string :=
  map (fun kv => column_label (fst kv) (dict_get (fst kv) "" u)) m.










(** The kinds of events. *)
Definition is_write (e : event) : bool :=
  match e with WriteCsv _ _ => true | _ => false end.

Definition is_read (e : event) : bool :=
  match e with OpenRead _ => true | _ => false end.

(** An event that is not the report write. *)
Definition silent (e : event) : Prop := is_write e = false.

(** ** Sample documents *)

Definition fl (z : Z) : pyval := PyFloat (F64.of_Z z).

(** A run with both [read.lat_ns] and [read.lat_us]; [read.bw = 2048] and
    [write.bw = 0]. *)
Definition doc_read_ns : pyval :=
  PyDict [("jobs", PyList [PyDict
    [("usr_cpu", fl 10); ("sys_cpu", fl 5);
     ("read", PyDict [("bw", PyInt 2048); ("iops", fl 100);
                      ("lat_ns", PyDict [("mean", PyInt 5000000);
                                         ("stddev", fl 1000000)]);
                      ("lat_us", PyDict [("mean", PyInt 7); ("stddev", PyInt 1)])]);
     ("write", PyDict [("bw", PyInt 0); ("iops", fl 0)])]])].

(** A run with no latency field at all. *)
Definition doc_no_latency : pyval :=
  PyDict [("jobs", PyList [PyDict
    [("usr_cpu", fl 20); ("sys_cpu", fl 7);
     ("read", PyDict [("bw", PyInt 4096); ("iops", fl 300)]);
     ("write", PyDict [("bw", PyInt 1024); ("iops", fl 50)])]])].

(** A run that only wrote, with its latency in microseconds. *)
Definition doc_write_us : pyval :=
  PyDict [("jobs", PyList [PyDict
    [("usr_cpu", fl 30); ("sys_cpu", fl 9);
     ("write", PyDict [("bw", PyInt 3072); ("iops", fl 200);
                       ("lat_us", PyDict [("mean", PyInt 3000);
                                          ("stddev", PyInt 500)])])]])].

(** Three runs expected under the prefix [fio]; the second document is
    missing. *)
Definition world_run2_missing : world :=
  {| fs_read := fun p =>
       if String.eqb p "fio1.json" then Ok doc_read_ns
       else if String.eqb p "fio3.json" then Ok doc_write_us
       else Raise FileNotFoundError;
     fs_write := fun _ => None |}.

(** The same, with a third run that has no latency data. *)
Definition world_mixed_units : world :=
  {| fs_read := fun p =>
       if String.eqb p "fio1.json" then Ok doc_read_ns
       else if String.eqb p "fio3.json" then Ok doc_no_latency
       else Raise FileNotFoundError;
     fs_write := fun _ => None |}.

(** No document at all. *)
Definition world_empty : world :=
  {| fs_read := fun _ => Raise FileNotFoundError;
     fs_write := fun _ => None |}.

(** A document that is valid JSON but a bare number. *)
Definition world_scalar : world :=
  {| fs_read := fun _ => Ok (PyInt 5);
     fs_write := fun _ => None |}.

(** Documents that exist and cannot be opened (permission denied). *)
Definition world_denied : world :=
  {| fs_read := fun _ => Raise OSError;
     fs_write := fun _ => None |}.

Definition args3 : args :=
  {| iterations := 3; output_filepath := "fio"; csv_output := "out.csv" |}.

(** The latency metrics of a job, from the first candidate that counts:
    average, standard deviation, unit. *)
Definition latency_metrics (j : list (string * pyval))
  : result (pyval * pyval * string) :=
  match first_candidate j with
  | Some (l, factor) =>
      mean <- py_get "mean" (PyInt 0) l ;;
      avg <- py_truediv mean (PyFloat factor) ;;
      stddev <- py_get "stddev" (PyInt 0) l ;;
      sd <- py_truediv stddev (PyFloat factor) ;;
      Ok (avg, sd, "ms")
  | None => Ok (PyInt 0, PyInt 0, "N/A")
  end.

(** The extraction rules of a job, rule by rule. *)
Definition job_metrics (j : list (string * pyval)) : result (metrics_t * units_t) :=
  match side_of j "read", side_of j "write" with
  | Some rd, Some wd =>
      let usr := dict_get "usr_cpu" (PyInt 0) j in
      let sys := dict_get "sys_cpu" (PyInt 0) j in
      total <- py_add usr sys ;;
      bw_sum <- py_add (dict_get "bw" (PyInt 0) rd) (dict_get "bw" (PyInt 0) wd) ;;
      bw <- py_truediv bw_sum (PyFloat f1024) ;;
      lat <- latency_metrics j ;;
      iops <- py_add (dict_get "iops" (PyInt 0) rd) (dict_get "iops" (PyInt 0) wd) ;;
      Ok ([("cpu_usr", usr); ("cpu_sys", sys); ("cpu_total", total);
           ("bandwidth", bw); ("avg_latency", fst (fst lat));
           ("stdev_latency", snd (fst lat)); ("iops", iops)],
          [("cpu_usr", "%"); ("cpu_sys", "%"); ("cpu_total", "%");
           ("bandwidth", "MiB/s"); ("avg_latency", snd lat);
           ("stdev_latency", snd lat); ("iops", "ops/s")])
  | _, _ => Raise AttributeError
  end.

(** ** The loop of [main] without its console lines *)

(** What a run adds to the series: each of its values at the end of the
    series of its metric. *)
Definition series_extend (am : list (string * list pyval)) (m : metrics_t)
  : list (string * list pyval) :=
  fold_left (fun am kv => series_append (fst kv) (snd kv) am) m am.

(** The cells of a run's row: each value printed with two decimals under
    the label of its metric and unit. *)
Fixpoint cells_of (units : units_t) (items : metrics_t)
  (run_data : list (string * string)) : result (list (string * string)) :=
  match items with
  | [] => Ok run_data
  | (key, value) :: rest =>
      txt <- py_format_2f value ;;
      cells_of units rest
        (dict_set (column_label key (dict_get key "" units)) txt run_data)
  end.

Definition run_cell (i : nat) : string * string :=
  ("Run", str_of_int (Z.of_nat i + 1)).

(** The accumulators after a run whose extraction gave [mu]; a run without
    metrics leaves them as they are. *)
Definition absorb (st : acc) (i : nat) (mu : metrics_t * units_t) : result acc :=
  let '(metrics, units) := mu in
  match metrics with
  | [] => Ok st
  | _ :: _ =>
      run_data <- cells_of units metrics [run_cell i] ;;
      Ok {| all_metrics := series_extend (all_metrics st) metrics;
            global_units_map := dict_update (global_units_map st) units;
            avg_latency_values :=
              (avg_latency_values st
                 ++ valid_latencies "avg_latency" [mu])%list;
            stdev_latency_values :=
              (stdev_latency_values st
                 ++ valid_latencies "stdev_latency" [mu])%list;
            individual_run_data := (individual_run_data st ++ [run_data])%list |}
  end.

(** The value of [parse_fio_output], its events left aside. *)
Definition parsed (w : world) (file_path : string) : result (metrics_t * units_t) :=
  snd (parse_fio_output w file_path).

Fixpoint absorb_files (w : world) (st : acc) (i : nat) (files : list string)
  : result acc :=
  match files with
  | [] => Ok st
  | file_path :: rest =>
      mu <- parsed w file_path ;;
      st' <- absorb st i mu ;;
      absorb_files w st' (S i) rest
  end.

(** The rows of the per-run table for a sequence of extraction results,
    the first of which is run [i + 1]: one row for each non-empty result. *)
Fixpoint rows_of (i : nat) (runs : list (metrics_t * units_t))
  : result (list (list (string * string))) :=
  match runs with
  | [] => Ok []
  | (m, u) :: rest =>
      match m with
      | [] => rows_of (S i) rest
      | _ :: _ =>
          row <- cells_of u m [run_cell i] ;;
          rows <- rows_of (S i) rest ;;
          Ok (row :: rows)
      end
  end.

Definition nonempty_run (mu : metrics_t * units_t) : bool :=
  match fst mu with [] => false | _ :: _ => true end.

(** Every series registered in [all_metrics] holds a value. *)
Definition series_nonempty (am : list (string * list pyval)) : Prop :=
  Forall (fun kv => snd kv <> []) am.

(** ** Expected reports *)

Definition files3 : list string := ["fio1.json"; "fio2.json"; "fio3.json"].

(** The report for [world_run2_missing]: the rows of runs 1 and 3, and
    statistics over their two values. *)
Definition report_run2_missing : list (list string) :=
  [["Individual Run Metrics"];
   ["Run"; "cpu_usr (%)"; "cpu_sys (%)"; "cpu_total (%)"; "bandwidth (MiB/s)";
    "avg_latency (ms)"; "stdev_latency (ms)"; "iops (ops/s)"];
   ["1"; "10.00"; "5.00"; "15.00"; "2.00"; "5.00"; "1.00"; "100.00"];
   ["3"; "30.00"; "9.00"; "39.00"; "3.00"; "3.00"; "0.50"; "200.00"];
   [];
   ["Aggregated Metrics"];
   ["Metric"; "Average"; "Std Dev"; "Unit"; "Min"; "Max"];
   ["Cpu Usr"; "20.00"; "14.14"; "%"; "10.00"; "30.00"];
   ["Cpu Sys"; "7.00"; "2.83"; "%"; "5.00"; "9.00"];
   ["Cpu Total"; "27.00"; "16.97"; "%"; "15.00"; "39.00"];
   ["Bandwidth"; "2.50"; "0.71"; "MiB/s"; "2.00"; "3.00"];
   ["Avg Latency"; "4.00"; "1.41"; "ms"; "3.00"; "5.00"];
   ["Stdev Latency"; "0.75"; "0.35"; "ms"; "0.50"; "1.00"];
   ["Iops"; "150.00"; "70.71"; "ops/s"; "100.00"; "200.00"];
   ["Average Latency"; ""; ""; "ms"; "3.00"; "5.00"];
   ["Standard Deviation Latency"; ""; ""; "ms"; "0.50"; "1.00"]].

(** The per-run section for [world_mixed_units]: run 1 has its latency in
    ms, run 3 has none. *)
Definition runs_mixed_units : list (list string) :=
  [["Individual Run Metrics"];
   ["Run"; "cpu_usr (%)"; "cpu_sys (%)"; "cpu_total (%)"; "bandwidth (MiB/s)";
    "avg_latency (ms)"; "stdev_latency (ms)"; "iops (ops/s)";
    "avg_latency (N/A)"; "stdev_latency (N/A)"];
   ["1"; "10.00"; "5.00"; "15.00"; "2.00"; "5.00"; "1.00"; "100.00"; ""; ""];
   ["3"; "20.00"; "7.00"; "27.00"; "5.00"; ""; ""; "350.00"; "0.00"; "0.00"];
   []].

(** The write event of a trace, if any. *)
Definition written (evs : list event) : list (string * list (list string)) :=
  flat_map (fun e => match e with WriteCsv p rows => [(p, rows)] | _ => [] end) evs.

(** ** Documents as FIO writes them *)

(** A number of an FIO report: a float, or a non-negative integer below
    2^52 (the sum of two of them is still exact in binary64). *)
Definition fio_number (v : pyval) : bool :=
  match v with
  | PyFloat _ => true
  | PyInt z => (0 <=? z) && (z <? 2 ^ 52)
  | _ => false
  end.

(** A field that is absent or satisfies [P]. *)
Definition absent_or (P : pyval -> bool) (o : option pyval) : bool :=
  match o with
  | None => true
  | Some v => P v
  end.

(** A latency object: [mean] and [stddev] are numbers when present. *)
Definition fio_latency (v : pyval) : bool :=
  match v with
  | PyDict ld =>
      absent_or fio_number (dict_lookup "mean" ld)
      && absent_or fio_number (dict_lookup "stddev" ld)
  | _ => false
  end.

(** The ["read"] or ["write"] object of a job. *)
Definition fio_side (v : pyval) : bool :=
  match v with
  | PyDict s =>
      absent_or fio_number (dict_lookup "bw" s)
      && absent_or fio_number (dict_lookup "iops" s)
      && absent_or fio_latency (dict_lookup "lat_ns" s)
      && absent_or fio_latency (dict_lookup "lat_us" s)
      && absent_or fio_latency (dict_lookup "lat_ms" s)
  | _ => false
  end.

(** A job entry whose fields, where present, have the types FIO gives
    them. *)
Definition fio_job (j : list (string * pyval)) : bool :=
  absent_or fio_number (dict_lookup "usr_cpu" j)
  && absent_or fio_number (dict_lookup "sys_cpu" j)
  && absent_or fio_side (dict_lookup "read" j)
  && absent_or fio_side (dict_lookup "write" j).

(** The sum of two numbers of a report: a float, or a non-negative
    integer below 2^53. *)
Definition fio_sum (v : pyval) : bool :=
  match v with
  | PyFloat _ => true
  | PyInt z => (0 <=? z) && (z <? 2 ^ 53)
  | _ => false
  end.

(** ** The trace of [main] *)

(** The events of [main] once the run documents are processed and the
    summary is computed: the write and its console line, or the line of
    the failed write, then the closing line. *)
Definition report_events (w : world) (a : args) (st : acc)
  (aggregated_results : list (list string)) : list event :=
  (match fs_write w (csv_output a) with
   | None =>
       [WriteCsv (csv_output a)
          (report_rows (individual_run_data st) aggregated_results);
        Print (nl ++ "Results successfully written to " ++ csv_output a)]
   | Some err =>
       [Print ("Error writing to CSV file " ++ csv_output a ++ ": " ++ err)]
   end
   ++ [Print (nl ++ "Combined FIO benchmark and parsing script completed.")])%list.

Definition banner : event := Print (nl ++ "--- Parsing FIO Output Files ---").


(** Three documents, the second of which is valid JSON but a bare
    number. *)
Definition world_run2_scalar : world :=
  {| fs_read := fun p =>
       if String.eqb p "fio2.json" then Ok (PyInt 5) else Ok doc_read_ns;
     fs_write := fun _ => None |}.

(** ** The shape of a non-empty result *)

(** The units of a non-empty result, given its latency unit. *)
Definition units_for (lu : string) : units_t :=
  [("cpu_usr", "%"); ("cpu_sys", "%"); ("cpu_total", "%"); ("bandwidth", "MiB/s");
   ("avg_latency", lu); ("stdev_latency", lu); ("iops", "ops/s")].

(** The header of the per-run table when every run has the latency unit
    [lu]. *)
Definition header_for (lu : string) : list string :=
  "Run" :: map (fun kv => column_label (fst kv) (snd kv)) (units_for lu).

(** The latency unit of a result. *)
Definition latency_unit_of (mu : metrics_t * units_t) : string :=
  dict_get "avg_latency" "" (snd mu).

(** A result whose latency is a measurement. *)
Definition measured_latency (mu : metrics_t * units_t) : bool :=
  String.eqb (latency_unit_of mu) "ms".

(** The series after [n] runs that gave metrics: none, or one list of
    [n] values for each of the seven metrics, in their order. *)
Definition series_table (n : nat) (am : list (string * list pyval)) : Prop :=
  match n with
  | O => am = []
  | S _ =>
      exists ls,
        am = combine metric_names ls
        /\ List.length ls = 7%nat
        /\ Forall (fun l => List.length l = n) ls
  end.

(** A result of the Extractor, by its shape: empty, or the seven metrics
    with the units of its latency unit. *)
Definition shaped (mu : metrics_t * units_t) : Prop :=
  (fst mu = [] /\ snd mu = [])
  \/ exists v1 v2 v3 v4 v5 v6 v7 lu,
       fst mu = [("cpu_usr", v1); ("cpu_sys", v2); ("cpu_total", v3);
                 ("bandwidth", v4); ("avg_latency", v5);
                 ("stdev_latency", v6); ("iops", v7)]
       /\ snd mu = units_for lu /\ (lu = "ms" \/ lu = "N/A").

(** ** Run numbers and skipped documents *)

(** A document that gives metrics. *)
Definition gives_metrics (w : world) (file_path : string) : bool :=
  match parsed w file_path with
  | Ok mu => nonempty_run mu
  | Raise _ => false
  end.

(** The numbers, counted from [i + 1], of the documents that give
    metrics. *)
Fixpoint kept_positions (w : world) (i : nat) (files : list string) : list Z :=
  match files with
  | [] => []
  | file_path :: rest =>
      if gives_metrics w file_path
      then (Z.of_nat i + 1) :: kept_positions w (S i) rest
      else kept_positions w (S i) rest
  end.

(** The ["Run"] column of the per-run table. *)
Definition run_column (rows : list (list (string * string))) : list string :=
  map (dict_get "Run" "") rows.

(** ** Exceptions the Extractor handles *)

(** The two [except] clauses of [parse_fio_output]. *)
Definition handled (e : exn) : bool :=
  match e with
  | FileNotFoundError | JSONDecodeError => true
  | _ => false
  end.

(** A result that is a value or an exception no [except] clause of the
    script names. *)
Definition unhandled (A : Type) (r : result A) : Prop :=
  forall e, r = Raise e -> handled e = false.
Arguments unhandled {A} r.

(** * Properties *)

(** ** Results, sides of a job and the latency chain *)

Lemma rbind_ok {A B : Type} (r : result A) (k : A -> result B) (b : B) :
  rbind r k = Ok b -> exists a, r = Ok a /\ k a = Ok b.
Proof. destruct r as [a|e]; simpl; intros H; [eauto | discriminate]. Qed.

Lemma py_get_ok k dflt v x :
  py_get k dflt v = Ok x -> exists j, v = PyDict j /\ x = dict_get k dflt j.
Proof. destruct v; simpl; intros H; try discriminate. inversion H; eauto. Qed.

Lemma side_of_get j side s :
  side_of j side = Some s -> dict_get side (PyDict []) j = PyDict s.
Proof.
  unfold side_of, dict_get. destruct (dict_lookup side j) as [v|].
  - destruct v; intros H; try discriminate. now inversion H.
  - intros H. now inversion H.
Qed.

Lemma get_side_of j side s :
  dict_get side (PyDict []) j = PyDict s -> side_of j side = Some s.
Proof.
  unfold side_of, dict_get. destruct (dict_lookup side j) as [v|].
  - intros ->. reflexivity.
  - intros H. now inversion H.
Qed.

Lemma sub_get_side j side field dflt s :
  side_of j side = Some s ->
  sub_get (PyDict j) side field dflt = Ok (dict_get field dflt s).
Proof. intros H. unfold sub_get. simpl. now rewrite (side_of_get _ _ _ H). Qed.

Lemma sub_get_ok j side field dflt x :
  sub_get (PyDict j) side field dflt = Ok x ->
  exists s, side_of j side = Some s.
Proof.
  unfold sub_get. simpl. intros H.
  apply py_get_ok in H as (s & Hs & _). exists s. now apply get_side_of.
Qed.

Lemma truthy_get_lookup field s :
  truthy (dict_get field PyNone s) = true ->
  dict_lookup field s = Some (dict_get field PyNone s).
Proof. unfold dict_get. destruct (dict_lookup field s); [reflexivity | discriminate]. Qed.

Lemma sub_item_truthy j side field s :
  side_of j side = Some s ->
  truthy (dict_get field PyNone s) = true ->
  sub_item (PyDict j) side field = Ok (dict_get field PyNone s).
Proof.
  intros Hs Ht. unfold sub_item. simpl.
  pose proof (truthy_get_lookup _ _ Ht) as Hl.
  unfold side_of in Hs. destruct (dict_lookup side j) as [v|].
  - destruct v; try discriminate. inversion Hs; subst. simpl. now rewrite Hl.
  - inversion Hs; subst. discriminate.
Qed.

Lemma latency_arm j side field s :
  side_of j side = Some s ->
  latency_test (PyDict j) side field = Ok (truthy (field_or PyNone j side field)).
Proof.
  intros Hs. unfold latency_test. rewrite (sub_get_side _ _ _ _ _ Hs). simpl.
  unfold field_or. now rewrite Hs.
Qed.

Lemma latency_arm_step j side field s factor (rest : result (pyval * spec_float)) :
  side_of j side = Some s ->
  (b <- latency_test (PyDict j) side field ;;
   if b then l <- sub_item (PyDict j) side field ;; Ok (l, factor) else rest)
  = match candidate j (side, field, factor) with
    | Some lf => Ok lf
    | None => rest
    end.
Proof.
  intros Hs. rewrite (latency_arm _ _ _ _ Hs). cbn [rbind candidate].
  destruct (truthy (field_or PyNone j side field)) eqn:Ht; [|reflexivity].
  unfold field_or in *. rewrite Hs in *.
  now rewrite (sub_item_truthy _ _ _ _ Hs Ht).
Qed.

Lemma select_latency_first j rd wd :
  side_of j "read" = Some rd -> side_of j "write" = Some wd ->
  select_latency (PyDict j)
  = Ok (match first_candidate j with Some lf => lf | None => (PyNone, f1) end).
Proof.
  intros Hr Hw. unfold select_latency, first_candidate, latency_candidates.
  cbn [first_some].
  rewrite !(latency_arm_step _ _ _ _ _ _ Hr).
  rewrite !(latency_arm_step _ _ _ _ _ _ Hw).
  repeat match goal with
         | |- context [candidate j ?c] => destruct (candidate j c) as [[? ?]|]
         end; reflexivity.
Qed.

Lemma first_some_in {A B : Type} (f : A -> option B) (l : list A) (y : B) :
  first_some f l = Some y -> exists x, In x l /\ f x = Some y.
Proof.
  induction l as [|x l IH]; simpl; [discriminate|].
  destruct (f x) as [y'|] eqn:Hf.
  - intros H; inversion H; subst. eauto.
  - intros H. destruct (IH H) as (x' & Hin & Hx'). eauto.
Qed.

Lemma first_candidate_truthy j l factor :
  first_candidate j = Some (l, factor) -> truthy l = true.
Proof.
  intros H. apply first_some_in in H as ([[side field] fac] & _ & Hc).
  unfold candidate in Hc.
  destruct (truthy (field_or PyNone j side field)) eqn:Ht; [|discriminate].
  inversion Hc; subst. exact Ht.
Qed.

Lemma extract_job_sides j rd wd :
  side_of j "read" = Some rd -> side_of j "write" = Some wd ->
  extract_job (PyDict j) [] [] = job_metrics j.
Proof.
  intros Hr Hw. unfold extract_job, job_metrics. rewrite Hr, Hw.
  cbn [py_get rbind].
  destruct (py_add _ _) as [total|e]; [cbn [rbind]|reflexivity].
  rewrite !(sub_get_side _ _ _ _ _ Hr), !(sub_get_side _ _ _ _ _ Hw).
  cbn [rbind].
  destruct (py_add _ _) as [bw_sum|e]; [cbn [rbind]|reflexivity].
  destruct (py_truediv _ _) as [bw|e]; [cbn [rbind]|reflexivity].
  rewrite (select_latency_first _ _ _ Hr Hw). cbn [rbind].
  unfold latency_metrics.
  destruct (first_candidate j) as [[l factor]|] eqn:Hc.
  - rewrite (first_candidate_truthy _ _ _ Hc).
    destruct (py_get "mean" _ l) as [mean|e]; [cbn [rbind]|reflexivity].
    destruct (py_truediv mean _) as [avg|e]; [cbn [rbind]|reflexivity].
    destruct (py_get "stddev" _ l) as [stddev|e]; [cbn [rbind]|reflexivity].
    destruct (py_truediv stddev _) as [sd|e]; [cbn [rbind]|reflexivity].
    destruct (py_add _ _) as [iops|e]; reflexivity.
  - cbn [truthy rbind].
    destruct (py_add _ _) as [iops|e]; reflexivity.
Qed.

Lemma extract_job_ok job_data r :
  extract_job job_data [] [] = Ok r ->
  exists j rd wd,
    job_data = PyDict j /\ side_of j "read" = Some rd /\ side_of j "write" = Some wd.
Proof.
  unfold extract_job. intros H.
  apply rbind_ok in H as (usr & Husr & H).
  apply py_get_ok in Husr as (j & -> & _).
  apply rbind_ok in H as (sys & _ & H).
  apply rbind_ok in H as (total & _ & H).
  apply rbind_ok in H as (rbw & Hrbw & H).
  apply rbind_ok in H as (wbw & Hwbw & _).
  apply sub_get_ok in Hrbw as (rd & Hr).
  apply sub_get_ok in Hwbw as (wd & Hw).
  eauto 7.
Qed.

Lemma extract_job_iff job_data r :
  extract_job job_data [] [] = Ok r <->
  exists j, job_data = PyDict j /\ job_metrics j = Ok r.
Proof.
  split.
  - intros H. destruct (extract_job_ok _ _ H) as (j & rd & wd & -> & Hr & Hw).
    exists j. split; [reflexivity|]. now rewrite <- (extract_job_sides _ _ _ Hr Hw).
  - intros (j & -> & H).
    unfold job_metrics in H.
    destruct (side_of j "read") as [rd|] eqn:Hr; [|discriminate].
    destruct (side_of j "write") as [wd|] eqn:Hw; [|discriminate].
    rewrite (extract_job_sides _ _ _ Hr Hw). unfold job_metrics. now rewrite Hr, Hw.
Qed.

(** ** binary64 facts *)



(** The running extremum of [min] and [max]: the same loop, with the
    order turned around for [max]. *)
Section Extremum.
Variable A : Type.
Variable lt : A -> A -> bool.
Hypothesis lt_irrefl : forall a, lt a a = false.
Hypothesis lt_trans : forall a b c, lt a b = true -> lt b c = true -> lt a c = true.



End Extremum.

(** *** Integers that are exact in binary64 *)

Lemma digits2_pos_lower p : 2 ^ (Zpos (digits2_pos p) - 1) <= Zpos p.
Proof.
  induction p as [p IH|p IH|]; cbn [digits2_pos].
  - rewrite Pos2Z.inj_succ. replace (Z.succ (Zpos (digits2_pos p)) - 1)
      with (Z.succ (Zpos (digits2_pos p) - 1)) by lia.
    rewrite Z.pow_succ_r by lia. lia.
  - rewrite Pos2Z.inj_succ. replace (Z.succ (Zpos (digits2_pos p)) - 1)
      with (Z.succ (Zpos (digits2_pos p) - 1)) by lia.
    rewrite Z.pow_succ_r by lia. lia.
  - cbn. lia.
Qed.

Lemma digits2_pos_small p : Zpos p < 2 ^ 53 -> Zpos (digits2_pos p) <= 53.
Proof.
  intros H. destruct (Z.le_gt_cases (Zpos (digits2_pos p)) 53) as [|Hgt]; [assumption|].
  pose proof (digits2_pos_lower p) as Hl.
  assert (2 ^ 53 <= 2 ^ (Zpos (digits2_pos p) - 1)) by (apply Z.pow_le_mono_r; lia).
  lia.
Qed.

Lemma digits2_pos_shift p k :
  digits2_pos (Pos.iter xO p k) = (digits2_pos p + k)%positive.
Proof.
  induction k as [|k IH] using Pos.peano_ind.
  - cbn. now rewrite Pos.add_1_r.
  - rewrite Pos.iter_succ. cbn [digits2_pos]. rewrite IH. lia.
Qed.

(** A mantissa of 53 bits with an exponent in range is kept as it is. *)
Lemma binary_round_aux_exact s m e :
  Zpos (digits2_pos m) = 53 -> -1074 <= e <= 971 ->
  binary_round_aux F64.prec F64.emax s (Zpos m) e loc_Exact = S754_finite s m e.
Proof.
  intros Hd He.
  assert (shr_fexp F64.prec F64.emax (Zpos m) e loc_Exact
          = ({| shr_m := Zpos m; shr_r := false; shr_s := false |}, e)) as Hshr.
  { unfold shr_fexp, fexp, emin, F64.prec, F64.emax. cbn [Zdigits2 shr_record_of_loc].
    rewrite Hd. replace (Z.max (53 + e - 53) (3 - 1024 - 53) - e) with 0 by lia.
    reflexivity. }
  unfold binary_round_aux. rewrite Hshr. cbn [shr_m loc_of_shr_record round_nearest_even].
  rewrite Hshr. cbn [shr_m]. unfold F64.emax, F64.prec.
  destruct (Z.leb_spec e (1024 - 53)); [reflexivity|lia].
Qed.

Lemma iter_xO_value p k : Zpos (Pos.iter xO p k) = Zpos p * 2 ^ Zpos k.
Proof.
  induction k as [|k IH] using Pos.peano_ind.
  - cbn [Pos.iter]. rewrite Z.pow_1_r. lia.
  - rewrite Pos.iter_succ, Pos2Z.inj_xO, IH, Pos2Z.inj_succ, Z.pow_succ_r by lia.
    lia.
Qed.

(** The conversion of a positive integer below 2^53 is exact. *)
Lemma of_Z_exact z :
  0 < z < 2 ^ 53 ->
  exists m e,
    F64.of_Z z = S754_finite false m e
    /\ Zpos (digits2_pos m) = 53 /\ -52 <= e <= 0 /\ Zpos m = z * 2 ^ (- e).
Proof.
  intros [Hpos Hlt]. destruct z as [|p|p]; try lia.
  pose proof (digits2_pos_small p Hlt) as Hd.
  unfold F64.of_Z, binary_normalize, binary_round.
  replace (fexp F64.prec F64.emax (Zpos (digits2_pos p) + 0))
    with (Zpos (digits2_pos p) - 53)
    by (unfold fexp, emin, F64.prec, F64.emax; lia).
  unfold shl_align.
  destruct (Zpos (digits2_pos p) - 53 - 0) as [|k|k] eqn:Hk; try lia.
  - rewrite binary_round_aux_exact by lia. exists p, 0.
    repeat split; lia.
  - replace (Zpos (digits2_pos p) - 53) with (- Zpos k) by lia.
    assert (Zpos (digits2_pos (Pos.iter xO p k)) = 53) as Hd'
      by (rewrite digits2_pos_shift; lia).
    rewrite binary_round_aux_exact by lia.
    exists (Pos.iter xO p k), (- Zpos k). repeat split; try lia.
    rewrite Z.opp_involutive. apply iter_xO_value.
Qed.


(** A positive integer below 2^53 converts to a positive finite float. *)
Lemma of_Z_small z :
  0 < z < 2 ^ 53 -> exists m e, F64.of_Z z = S754_finite false m e.
Proof.
  intros H. destruct (of_Z_exact z H) as (m & e & Hf & _). eauto.
Qed.

(** *** Signs *)








(** *** Division by 1024 *)



(** ** The Extractor *)

Lemma extract_first_job data j :
  first_job data = Some j -> extract data = extract_job (PyDict j) [] [].
Proof.
  unfold first_job. destruct data as [| | | | | |d]; try discriminate.
  destruct (dict_lookup "jobs" d) as [jobs|] eqn:Hj; [|discriminate].
  destruct jobs as [| | | | |l|]; try discriminate.
  destruct l as [|job rest]; [discriminate|].
  destruct job; try discriminate.
  intros H; inversion H; subst.
  unfold extract. cbn [py_contains rbind]. unfold dict_mem. rewrite Hj.
  cbn [py_getitem rbind]. rewrite Hj. reflexivity.
Qed.

Lemma extract_nonempty data m u :
  extract data = Ok (m, u) -> m <> [] ->
  exists j, first_job data = Some j /\ job_metrics j = Ok (m, u).
Proof.
  unfold extract. intros H Hm.
  apply rbind_ok in H as (has & Hhas & H).
  apply rbind_ok in H as (cond & Hcond & H).
  destruct cond; [|inversion H; subst; now elim Hm].
  destruct has; [|discriminate].
  apply rbind_ok in H as (jobs & Hjobs & H).
  apply rbind_ok in H as (job & Hjob & H).
  apply extract_job_iff in H as (j & -> & H).
  exists j. split; [|exact H].
  destruct data; try discriminate. simpl in Hjobs.
  unfold first_job. destruct (dict_lookup "jobs" d) as [v|]; [|discriminate].
  inversion Hjobs; subst.
  destruct jobs as [| | | |s|l|]; try discriminate.
  - destruct s; discriminate.
  - destruct l; [discriminate|]. now inversion Hjob.
Qed.

(** A loaded object without ["jobs"], or whose ["jobs"] is empty, gives
    the empty result. *)
Lemma extract_no_jobs d :
  (dict_lookup "jobs" d = None
   \/ exists jobs, dict_lookup "jobs" d = Some jobs /\ py_len_positive jobs = Ok false) ->
  extract (PyDict d) = Ok ([], []).
Proof.
  unfold extract. cbn [py_contains rbind]. unfold dict_mem.
  intros [H | (jobs & H & Hlen)]; rewrite H; cbn [rbind py_getitem].
  - reflexivity.
  - rewrite H. cbn [rbind]. rewrite Hlen. reflexivity.
Qed.

Lemma parse_loaded w p data :
  fs_read w p = Ok data ->
  parse_fio_output w p = ([OpenRead p], extract data).
Proof.
  intros H. unfold parse_fio_output. rewrite H. unfold lift, emit, mbind.
  reflexivity.
Qed.

Lemma parse_raises w p e :
  fs_read w p = Raise e ->
  e <> FileNotFoundError -> e <> JSONDecodeError ->
  parse_fio_output w p = ([OpenRead p], Raise e).
Proof.
  intros H H1 H2. unfold parse_fio_output. rewrite H.
  destruct e; try reflexivity; congruence.
Qed.

Lemma parse_nonempty w p evs m u :
  parse_fio_output w p = (evs, Ok (m, u)) -> m <> [] ->
  exists data j,
    fs_read w p = Ok data /\ first_job data = Some j
    /\ job_metrics j = Ok (m, u) /\ evs = [OpenRead p].
Proof.
  intros H Hm. destruct (fs_read w p) as [data|e] eqn:Hr.
  - rewrite (parse_loaded _ _ _ Hr) in H. injection H as Hev Hx.
    destruct (extract_nonempty _ _ _ Hx Hm) as (j & Hj & Hjm).
    exists data, j. auto.
  - unfold parse_fio_output in H. rewrite Hr in H.
    destruct e; cbn in H; inversion H; subst; now elim Hm.
Qed.

Lemma job_metrics_ok j m u :
  job_metrics j = Ok (m, u) ->
  exists rd wd total bw_sum bw avg sd lu iops,
    side_of j "read" = Some rd /\ side_of j "write" = Some wd
    /\ py_add (dict_get "usr_cpu" (PyInt 0) j) (dict_get "sys_cpu" (PyInt 0) j) = Ok total
    /\ py_add (dict_get "bw" (PyInt 0) rd) (dict_get "bw" (PyInt 0) wd) = Ok bw_sum
    /\ py_truediv bw_sum (PyFloat f1024) = Ok bw
    /\ latency_metrics j = Ok (avg, sd, lu)
    /\ py_add (dict_get "iops" (PyInt 0) rd) (dict_get "iops" (PyInt 0) wd) = Ok iops
    /\ m = [("cpu_usr", dict_get "usr_cpu" (PyInt 0) j);
            ("cpu_sys", dict_get "sys_cpu" (PyInt 0) j); ("cpu_total", total);
            ("bandwidth", bw); ("avg_latency", avg); ("stdev_latency", sd);
            ("iops", iops)]
    /\ u = [("cpu_usr", "%"); ("cpu_sys", "%"); ("cpu_total", "%");
            ("bandwidth", "MiB/s"); ("avg_latency", lu); ("stdev_latency", lu);
            ("iops", "ops/s")].
Proof.
  unfold job_metrics.
  destruct (side_of j "read") as [rd|]; [|discriminate].
  destruct (side_of j "write") as [wd|]; [|discriminate].
  cbv zeta. intros H.
  apply rbind_ok in H as (total & Ht & H).
  apply rbind_ok in H as (bw_sum & Hs & H).
  apply rbind_ok in H as (bw & Hb & H).
  apply rbind_ok in H as ([[avg sd] lu] & Hl & H).
  apply rbind_ok in H as (iops & Hi & H).
  inversion H; subst. cbn [fst snd].
  exists rd, wd, total, bw_sum, bw, avg, sd, lu, iops. repeat split; assumption.
Qed.

Lemma latency_metrics_some j l factor avg sd lu :
  first_candidate j = Some (l, factor) ->
  latency_metrics j = Ok (avg, sd, lu) ->
  exists ld,
    l = PyDict ld
    /\ py_truediv (dict_get "mean" (PyInt 0) ld) (PyFloat factor) = Ok avg
    /\ py_truediv (dict_get "stddev" (PyInt 0) ld) (PyFloat factor) = Ok sd
    /\ lu = "ms".
Proof.
  intros Hc. unfold latency_metrics. rewrite Hc. intros H.
  apply rbind_ok in H as (mean & Hm & H).
  apply py_get_ok in Hm as (ld & -> & ->).
  apply rbind_ok in H as (avg' & Ha & H).
  apply rbind_ok in H as (stddev & Hs & H). cbn in Hs. inversion Hs; subst.
  apply rbind_ok in H as (sd' & Hsd & H).
  inversion H; subst. exists ld. auto.
Qed.

Lemma latency_metrics_none j avg sd lu :
  first_candidate j = None ->
  latency_metrics j = Ok (avg, sd, lu) ->
  avg = PyInt 0 /\ sd = PyInt 0 /\ lu = "N/A".
Proof.
  intros Hc. unfold latency_metrics. rewrite Hc. intros H. inversion H; auto.
Qed.

(** *** What the Extractor recovers from *)

(** C1, as the code has it: [parse_fio_output] recovers from a missing
    file and from invalid JSON, printing a diagnostic and returning the
    empty result, and it returns the empty result silently for a loaded
    object that has no ["jobs"] or an empty one.  Nothing else is caught:
    any other exception of the read, and any exception raised while the
    loaded document is taken apart, reaches the caller. *)
Theorem parse_fio_output_recovery (w : world) (p : string) :
  (fs_read w p = Raise FileNotFoundError ->
   parse_fio_output w p
   = ([OpenRead p; Print ("Error: File not found at " ++ p)], Ok ([], [])))
  /\ (fs_read w p = Raise JSONDecodeError ->
      parse_fio_output w p
      = ([OpenRead p; Print ("Error: Invalid JSON in " ++ p)], Ok ([], [])))
  /\ (forall d,
        fs_read w p = Ok (PyDict d) ->
        (dict_lookup "jobs" d = None
         \/ exists jobs,
              dict_lookup "jobs" d = Some jobs /\ py_len_positive jobs = Ok false) ->
        parse_fio_output w p = ([OpenRead p], Ok ([], [])))
  /\ (forall e,
        fs_read w p = Raise e ->
        e <> FileNotFoundError -> e <> JSONDecodeError ->
        parse_fio_output w p = ([OpenRead p], Raise e))
  /\ (forall data e,
        fs_read w p = Ok data -> extract data = Raise e ->
        parse_fio_output w p = ([OpenRead p], Raise e)).
Proof.
  repeat split.
  - intros H. unfold parse_fio_output. now rewrite H.
  - intros H. unfold parse_fio_output. now rewrite H.
  - intros d Hr Hj. rewrite (parse_loaded _ _ _ Hr).
    now rewrite (extract_no_jobs _ Hj).
  - intros e. apply parse_raises.
  - intros data e Hr He. rewrite (parse_loaded _ _ _ Hr). now rewrite He.
Qed.

Lemma parse_fio_output_recovery_witness :
  parse_fio_output world_empty "fio1.json"
  = ([OpenRead "fio1.json"; Print "Error: File not found at fio1.json"],
     Ok ([], [])).
Proof.
  apply (proj1 (parse_fio_output_recovery world_empty "fio1.json")).
  reflexivity.
Defined.

(** C1, as the specification states it, fails: a document that is valid
    JSON but a bare number makes ['jobs' in data] raise [TypeError], and a
    document that cannot be opened for lack of permission raises an
    [OSError] that is not [FileNotFoundError]; both leave
    [parse_fio_output]. *)
Lemma parse_fio_output_error_escapes :
  parse_fio_output world_scalar "fio1.json"
  = ([OpenRead "fio1.json"], Raise TypeError)
  /\ parse_fio_output world_denied "fio1.json"
     = ([OpenRead "fio1.json"], Raise OSError).
Proof. split; reflexivity. Qed.

(** *** The metrics of a parsed job *)

(** C10: a non-empty result of the Extractor has exactly the seven metric
    names, in the order of the source, each with a unit, and the two
    latency metrics carry the same unit, ["ms"] or ["N/A"]. *)
Theorem extractor_seven_metrics (w : world) (p : string) (evs : list event)
  (m : metrics_t) (u : units_t) :
  parse_fio_output w p = (evs, Ok (m, u)) -> m <> [] ->
  dict_keys m = metric_names
  /\ dict_keys u = metric_names
  /\ exists lu,
       (lu = "ms" \/ lu = "N/A")
       /\ dict_lookup "avg_latency" u = Some lu
       /\ dict_lookup "stdev_latency" u = Some lu.
Proof.
  intros H Hm.
  destruct (parse_nonempty _ _ _ _ _ H Hm) as (data & j & _ & _ & Hjm & _).
  destruct (job_metrics_ok _ _ _ Hjm)
    as (rd & wd & total & bw_sum & bw & avg & sd & lu & iops
        & _ & _ & _ & _ & _ & Hl & _ & -> & ->).
  repeat split. exists lu. repeat split.
  destruct (first_candidate j) as [[l factor]|] eqn:Hc.
  - destruct (latency_metrics_some _ _ _ _ _ _ Hc Hl) as (_ & _ & _ & _ & ->).
    now left.
  - destruct (latency_metrics_none _ _ _ _ Hc Hl) as (_ & _ & ->). now right.
Qed.

Lemma extractor_seven_metrics_witness :
  exists m u,
    parse_fio_output world_run2_missing "fio1.json"
    = ([OpenRead "fio1.json"], Ok (m, u))
    /\ dict_keys m = metric_names
    /\ dict_keys u = metric_names
    /\ exists lu,
         (lu = "ms" \/ lu = "N/A")
         /\ dict_lookup "avg_latency" u = Some lu
         /\ dict_lookup "stdev_latency" u = Some lu.
Proof.
  eexists. eexists. split; [vm_compute; reflexivity|].
  eapply (extractor_seven_metrics world_run2_missing "fio1.json");
    [vm_compute; reflexivity | discriminate].
Defined.





(** ** The loop over the run documents *)

Lemma snd_mbind {A B : Type} (m : M A) (k : A -> M B) :
  snd (mbind m k) = rbind (snd m) (fun a => snd (k a)).
Proof.
  destruct m as [l [a|e]]; simpl; [|reflexivity]. now destruct (k a).
Qed.

Lemma fst_mbind_Forall {A B : Type} (P : event -> Prop) (m : M A) (k : A -> M B) :
  Forall P (fst m) -> (forall a, Forall P (fst (k a))) ->
  Forall P (fst (mbind m k)).
Proof.
  destruct m as [l [a|e]]; simpl; intros Hl Hk; [|exact Hl].
  specialize (Hk a). destruct (k a) as [l' r]. simpl in *.
  apply Forall_app. now split.
Qed.

Lemma record_items_snd u items : forall am rd,
  snd (record_items u items am rd)
  = rbind (cells_of u items rd) (fun c => Ok (series_extend am items, c)).
Proof.
  induction items as [|[key value] rest IH]; intros am rd; [reflexivity|].
  cbn [record_items cells_of]. rewrite snd_mbind. cbn [lift snd].
  destruct (py_format_2f value) as [txt|e]; [|reflexivity].
  cbn [rbind]. rewrite snd_mbind. cbn [print emit snd rbind].
  rewrite IH. reflexivity.
Qed.

Lemma record_items_silent u items : forall am rd,
  Forall silent (fst (record_items u items am rd)).
Proof.
  induction items as [|[key value] rest IH]; intros am rd; [constructor|].
  cbn [record_items]. apply fst_mbind_Forall; [constructor|].
  intros txt. apply fst_mbind_Forall; [|intros _; apply IH].
  repeat constructor.
Qed.

Lemma parse_fio_output_silent w p :
  Forall silent (fst (parse_fio_output w p)).
Proof.
  unfold parse_fio_output. apply fst_mbind_Forall; [repeat constructor|].
  intros _. destruct (fs_read w p) as [data|e]; [constructor|].
  destruct e; repeat constructor.
Qed.

Lemma process_run_snd w st i p :
  snd (process_run w st i p) = rbind (parsed w p) (absorb st i).
Proof.
  unfold process_run, parsed. rewrite snd_mbind. cbn [print emit snd rbind].
  rewrite snd_mbind. destruct (snd (parse_fio_output w p)) as [[m u]|e]; [|reflexivity].
  cbn [rbind absorb]. destruct m as [|kv m']; [reflexivity|].
  rewrite snd_mbind. cbn [print emit snd rbind]. rewrite snd_mbind.
  rewrite record_items_snd. fold (run_cell i).
  destruct (cells_of u (kv :: m') [run_cell i]) as [rd|e]; [|reflexivity].
  cbn [rbind mret snd]. unfold valid_latencies. cbn [flat_map fst snd].
  rewrite !app_nil_r.
  destruct (latency_is_valid "avg_latency" (kv :: m') u);
    destruct (latency_is_valid "stdev_latency" (kv :: m') u);
    rewrite ?app_nil_r; reflexivity.
Qed.

Lemma process_run_silent w st i p :
  Forall silent (fst (process_run w st i p)).
Proof.
  unfold process_run. apply fst_mbind_Forall; [repeat constructor|]. intros _.
  apply fst_mbind_Forall; [apply parse_fio_output_silent|]. intros [m u].
  destruct m as [|kv m'].
  - apply fst_mbind_Forall; [repeat constructor | intros _; constructor].
  - apply fst_mbind_Forall; [repeat constructor|]. intros _.
    apply fst_mbind_Forall; [apply record_items_silent|].
    intros [am rd]. constructor.
Qed.

Lemma process_runs_snd w files : forall st i,
  snd (process_runs w st i files) = absorb_files w st i files.
Proof.
  induction files as [|p rest IH]; intros st i; [reflexivity|].
  cbn [process_runs absorb_files]. rewrite snd_mbind, process_run_snd.
  destruct (parsed w p) as [mu|e]; [|reflexivity]. cbn [rbind].
  destruct (absorb st i mu) as [st'|e]; [|reflexivity]. cbn [rbind]. apply IH.
Qed.

Lemma process_runs_silent w files : forall st i,
  Forall silent (fst (process_runs w st i files)).
Proof.
  induction files as [|p rest IH]; intros st i; [constructor|].
  cbn [process_runs]. apply fst_mbind_Forall; [apply process_run_silent|].
  intros st'. apply IH.
Qed.

(** ** Dictionaries and series *)

Lemma dict_lookup_set {V : Type} (k k' : string) (v : V) (d : list (string * V)) :
  dict_lookup k' (dict_set k v d)
  = if String.eqb k' k then Some v else dict_lookup k' d.
Proof.
  induction d as [|[k0 v0] d IH]; simpl.
  - destruct (String.eqb_spec k' k); reflexivity.
  - destruct (String.eqb_spec k k0) as [->|Hk]; simpl.
    + destruct (String.eqb_spec k' k0); reflexivity.
    + destruct (String.eqb_spec k' k0) as [->|Hk'].
      * destruct (String.eqb_spec k0 k); [congruence|reflexivity].
      * exact IH.
Qed.

Lemma series_append_get k k' v am :
  dict_get k' [] (series_append k v am)
  = if String.eqb k' k then (dict_get k [] am ++ [v])%list else dict_get k' [] am.
Proof.
  unfold series_append, dict_get at 1. rewrite dict_lookup_set.
  now destruct (String.eqb k' k).
Qed.

Lemma series_extend_get k m : forall am,
  NoDup (dict_keys m) ->
  dict_get k [] (series_extend am m)
  = (dict_get k [] am
       ++ match dict_lookup k m with Some v => [v] | None => [] end)%list.
Proof.
  induction m as [|[k0 v0] m IH]; intros am Hnd.
  - simpl. now rewrite app_nil_r.
  - cbn [dict_keys map fst] in Hnd. inversion Hnd as [|? ? Hnotin Hnd']; subst.
    change (series_extend am ((k0, v0) :: m))
      with (series_extend (series_append k0 v0 am) m).
    rewrite (IH _ Hnd'), series_append_get. cbn [dict_lookup].
    destruct (String.eqb_spec k k0) as [->|Hk]; [|reflexivity].
    assert (dict_lookup k0 m = None) as ->.
    { clear -Hnotin. induction m as [|[k1 v1] m IH]; [reflexivity|].
      simpl in *. destruct (String.eqb_spec k0 k1) as [->|_].
      - elim Hnotin. now left.
      - apply IH. intros H. apply Hnotin. now right. }
    now rewrite app_nil_r.
Qed.

(** The series of a metric after a sequence of runs: what it held before,
    then the value of each run that has the metric, in run order. *)
Lemma series_after_runs k ms : forall am,
  Forall (fun m => NoDup (dict_keys m)) ms ->
  dict_get k [] (fold_left series_extend ms am)
  = (dict_get k [] am ++ series_of k ms)%list.
Proof.
  induction ms as [|m ms IH]; intros am Hnd.
  - simpl. now rewrite app_nil_r.
  - inversion Hnd as [|? ? Hm Hms]; subst. cbn [fold_left series_of flat_map].
    rewrite (IH _ Hms), (series_extend_get _ _ _ Hm), <- app_assoc. reflexivity.
Qed.

Lemma dict_set_Forall {V : Type} (P : string * V -> Prop) k v (d : list (string * V)) :
  Forall P d -> (forall k', P (k', v)) -> Forall P (dict_set k v d).
Proof.
  intros Hd Hv. induction d as [|[k0 v0] d IH]; simpl.
  - constructor; [apply Hv|constructor].
  - inversion Hd; subst. destruct (String.eqb k k0); constructor; auto.
Qed.

Lemma series_append_nonempty k v am :
  series_nonempty am -> series_nonempty (series_append k v am).
Proof.
  intros H. apply dict_set_Forall; [exact H|].
  intros k'. simpl. destruct (dict_get k [] am); discriminate.
Qed.

Lemma series_extend_nonempty m : forall am,
  series_nonempty am -> series_nonempty (series_extend am m).
Proof.
  induction m as [|[k v] m IH]; intros am H; [exact H|].
  apply IH. now apply series_append_nonempty.
Qed.

Lemma absorb_nonempty st i mu st' :
  absorb st i mu = Ok st' ->
  series_nonempty (all_metrics st) -> series_nonempty (all_metrics st').
Proof.
  destruct mu as [m u]. unfold absorb. destruct m as [|kv m'].
  - intros H Hst. inversion H; subst. exact Hst.
  - intros H Hst. apply rbind_ok in H as (rd & _ & H). injection H as <-.
    cbn [all_metrics]. exact (series_extend_nonempty (kv :: m') _ Hst).
Qed.

Lemma absorb_files_nonempty w files : forall st i st',
  absorb_files w st i files = Ok st' ->
  series_nonempty (all_metrics st) -> series_nonempty (all_metrics st').
Proof.
  induction files as [|p rest IH]; intros st i st' H Hst.
  - injection H as <-. exact Hst.
  - cbn [absorb_files] in H.
    apply rbind_ok in H as (mu & _ & H). apply rbind_ok in H as (st1 & H1 & H).
    eapply IH; [exact H|]. eapply absorb_nonempty; eassumption.
Qed.

(** What [absorb_files] leaves in the accumulators, in terms of the
    extraction results of the files. *)
Lemma absorb_files_runs w files : forall st i st',
  absorb_files w st i files = Ok st' ->
  exists runs rows,
    mapM (parsed w) files = Ok runs
    /\ rows_of i runs = Ok rows
    /\ individual_run_data st' = (individual_run_data st ++ rows)%list
    /\ all_metrics st' = fold_left series_extend (map fst runs) (all_metrics st)
    /\ avg_latency_values st'
       = (avg_latency_values st ++ valid_latencies "avg_latency" runs)%list
    /\ stdev_latency_values st'
       = (stdev_latency_values st ++ valid_latencies "stdev_latency" runs)%list
    /\ global_units_map st'
       = fold_left dict_update (map snd (filter nonempty_run runs))
           (global_units_map st).
Proof.
  induction files as [|p rest IH]; intros st i st' H.
  - injection H as <-. exists [], []. cbn. rewrite !app_nil_r. repeat split.
  - cbn [absorb_files] in H.
    apply rbind_ok in H as ([m u] & Hp & H). apply rbind_ok in H as (st1 & H1 & H).
    destruct (IH _ _ _ H) as (runs & rows & Hruns & Hrows & Hird & Ham & Havg & Hsd & Hgum).
    cbn [mapM]. rewrite Hp, Hruns. cbn [rbind].
    unfold absorb in H1. destruct m as [|kv m'].
    + injection H1 as <-. exists (([], u) :: runs), rows.
      cbn [rows_of map fst snd fold_left filter nonempty_run].
      repeat split; assumption.
    + apply rbind_ok in H1 as (rd & Hrd & H1). injection H1 as <-.
      cbn [all_metrics global_units_map avg_latency_values stdev_latency_values
             individual_run_data] in *.
      exists ((kv :: m', u) :: runs), (rd :: rows).
      cbn [rows_of]. rewrite Hrd, Hrows. cbn [rbind].
      rewrite Hird, Ham, Havg, Hsd, Hgum, <- !app_assoc.
      cbn [map fst snd fold_left filter nonempty_run].
      unfold valid_latencies. cbn [flat_map]. rewrite ?app_nil_r.
      repeat split.
Qed.

Lemma rows_of_length runs : forall i rows,
  rows_of i runs = Ok rows ->
  List.length rows = List.length (filter nonempty_run runs).
Proof.
  induction runs as [|[m u] runs IH]; intros i rows H.
  - now inversion H.
  - cbn [rows_of] in H. destruct m as [|kv m'].
    + cbn [filter nonempty_run fst]. eapply IH; eassumption.
    + apply rbind_ok in H as (row & _ & H). apply rbind_ok in H as (rows' & Hr & H).
      inversion H; subst. cbn [filter nonempty_run fst List.length].
      f_equal. eapply IH; eassumption.
Qed.

(** ** Filenames and the empty outcome *)

Lemma range1_length n : List.length (range1 n) = Z.to_nat n.
Proof. unfold range1. now rewrite length_map, length_seq. Qed.

Lemma range1_nth n i :
  (i < Z.to_nat n)%nat -> nth_error (range1 n) i = Some (Z.of_nat i + 1).
Proof.
  intros Hi. unfold range1. rewrite nth_error_map.
  rewrite (nth_error_nth' _ 0%nat) by now rewrite length_seq.
  rewrite seq_nth by exact Hi. cbn [option_map]. f_equal. lia.
Qed.

(** C7: a non-positive iteration count, and a prefix that is empty or not
    a string, are refused with a [ValueError] that says which; [main]
    asks for the filenames first, so it stops there with no line printed
    and no document opened; a positive count [n] and a non-empty prefix
    give the [n] names prefix, run number from 1, [.json]. *)
Theorem filenames_checked_then_numbered :
  (forall n prefix,
     n <= 0 ->
     generate_fio_filenames (PyInt n) prefix
     = Raise (ValueError "num_iterations must be a positive integer."))
  /\ (forall n prefix,
        0 < n -> (forall s, prefix = PyStr s -> s = "") ->
        generate_fio_filenames (PyInt n) prefix
        = Raise (ValueError "prefix must be a non-empty string."))
  /\ (forall w a,
        iterations a <= 0 \/ output_filepath a = "" ->
        exists msg, main w a = ([], Raise (ValueError msg)))
  /\ (forall n s,
        0 < n -> s <> "" ->
        exists files,
          generate_fio_filenames (PyInt n) (PyStr s) = Ok files
          /\ List.length files = Z.to_nat n
          /\ forall i, (i < Z.to_nat n)%nat ->
               nth_error files i
               = Some (s ++ str_of_int (Z.of_nat i + 1) ++ ".json")).
Proof.
  repeat split.
  - intros n prefix Hn. unfold generate_fio_filenames.
    destruct (Z.leb_spec n 0); [reflexivity|lia].
  - intros n prefix Hn Hp. unfold generate_fio_filenames.
    destruct (Z.leb_spec n 0); [lia|].
    destruct prefix; try reflexivity. now rewrite (Hp s eq_refl).
  - intros w a H. unfold main, generate_fio_filenames.
    destruct (Z.leb_spec (iterations a) 0) as [Hle|Hgt].
    + eexists. reflexivity.
    + destruct H as [H|H]; [lia|]. rewrite H. eexists. reflexivity.
  - intros n s Hn Hs. unfold generate_fio_filenames.
    destruct (Z.leb_spec n 0); [lia|].
    destruct (String.eqb_spec s ""); [contradiction|].
    eexists. split; [reflexivity|]. split.
    + now rewrite length_map, range1_length.
    + intros i Hi. rewrite nth_error_map, (range1_nth _ _ Hi). reflexivity.
Qed.

Lemma filenames_checked_then_numbered_witness :
  main world_run2_missing
    {| iterations := 0; output_filepath := "fio"; csv_output := "out.csv" |}
  = ([], Raise (ValueError "num_iterations must be a positive integer."))
  /\ generate_fio_filenames (PyInt 3) (PyStr "fio")
     = Ok ["fio1.json"; "fio2.json"; "fio3.json"].
Proof.
  split.
  - destruct (proj1 (proj2 (proj2 filenames_checked_then_numbered))
                world_run2_missing
                {| iterations := 0; output_filepath := "fio"; csv_output := "out.csv" |})
      as (msg & H).
    + left. vm_compute. discriminate.
    + rewrite H. vm_compute in H. injection H as <-. reflexivity.
  - destruct (proj2 (proj2 (proj2 filenames_checked_then_numbered)) 3 "fio")
      as (files & H & _).
    + reflexivity.
    + discriminate.
    + rewrite H. vm_compute in H. injection H as <-. reflexivity.
Defined.

Lemma parse_fio_output_reads w p :
  filter is_read (fst (parse_fio_output w p)) = [OpenRead p].
Proof.
  unfold parse_fio_output. destruct (fs_read w p) as [data|e]; [reflexivity|].
  destruct e; reflexivity.
Qed.





(** ** The per-run table *)

Lemma existsb_eqb_In x l : existsb (String.eqb x) l = true <-> In x l.
Proof.
  rewrite existsb_exists. split.
  - intros (y & Hy & He). apply String.eqb_eq in He. now subst.
  - intros H. exists x. split; [exact H|apply String.eqb_refl].
Qed.

Lemma add_fieldnames_first_seen keys : forall fieldnames,
  add_fieldnames fieldnames keys = (fieldnames ++ first_seen fieldnames keys)%list.
Proof.
  induction keys as [|k keys IH]; intros fn; cbn [add_fieldnames first_seen].
  - now rewrite app_nil_r.
  - destruct (existsb (String.eqb k) fn); rewrite IH; [reflexivity|].
    now rewrite <- app_assoc.
Qed.

Lemma first_seen_app a : forall s b,
  first_seen s (a ++ b)
  = (first_seen s a ++ first_seen (s ++ first_seen s a) b)%list.
Proof.
  induction a as [|x a IH]; intros s b; cbn [first_seen app].
  - now rewrite app_nil_r.
  - destruct (existsb (String.eqb x) s); rewrite IH; [reflexivity|].
    cbn [app]. now rewrite <- app_assoc.
Qed.

Lemma fieldnames_fold runs : forall fieldnames,
  fold_left (fun fn row => add_fieldnames fn (dict_keys row)) runs fieldnames
  = (fieldnames
       ++ first_seen fieldnames (flat_map (@dict_keys string) runs))%list.
Proof.
  induction runs as [|row runs IH]; intros fn; cbn [fold_left flat_map].
  - now rewrite app_nil_r.
  - rewrite IH, add_fieldnames_first_seen, first_seen_app, <- app_assoc.
    reflexivity.
Qed.

Lemma first_seen_In l : forall s x,
  In x (s ++ first_seen s l) <-> In x s \/ In x l.
Proof.
  induction l as [|y l IH]; intros s x; cbn [first_seen].
  - rewrite app_nil_r. simpl. tauto.
  - destruct (existsb (String.eqb y) s) eqn:Hy.
    + apply existsb_eqb_In in Hy. rewrite IH. simpl.
      split; [tauto|]. intros [H|[<-|H]]; auto.
    + replace (s ++ y :: first_seen (s ++ [y]) l)%list
        with ((s ++ [y]) ++ first_seen (s ++ [y]) l)%list
        by now rewrite <- app_assoc.
      rewrite IH, in_app_iff. simpl. tauto.
Qed.

Lemma first_seen_NoDup l : forall s,
  NoDup s -> NoDup (s ++ first_seen s l).
Proof.
  induction l as [|y l IH]; intros s Hs; cbn [first_seen].
  - now rewrite app_nil_r.
  - destruct (existsb (String.eqb y) s) eqn:Hy; [now apply IH|].
    replace (s ++ y :: first_seen (s ++ [y]) l)%list
      with ((s ++ [y]) ++ first_seen (s ++ [y]) l)%list
      by now rewrite <- app_assoc.
    apply IH. apply NoDup_app; [exact Hs|repeat constructor; simpl; tauto|].
    intros z Hz [<-|[]]. apply existsb_eqb_In in Hz. congruence.
Qed.

Lemma dict_keys_set {V : Type} k (v : V) d :
  dict_keys (dict_set k v d) = add_fieldnames (dict_keys d) [k].
Proof.
  unfold dict_keys. cbn [add_fieldnames].
  induction d as [|[k0 v0] d IH]; [reflexivity|].
  cbn [dict_set map fst existsb].
  destruct (String.eqb k k0); [reflexivity|].
  cbn [map fst orb]. rewrite IH.
  now destruct (existsb (String.eqb k) (map fst d)).
Qed.

Lemma cells_of_keys u m : forall rd row,
  cells_of u m rd = Ok row ->
  dict_keys row = add_fieldnames (dict_keys rd) (labels_of m u).
Proof.
  induction m as [|[k v] m IH]; intros rd row H; cbn [cells_of] in H.
  - now injection H as <-.
  - apply rbind_ok in H as (txt & _ & H). rewrite (IH _ _ H), dict_keys_set.
    reflexivity.
Qed.

Lemma column_label_not_run key unit : column_label key unit <> "Run".
Proof.
  unfold column_label.
  destruct key as [|c1 [|c2 [|c3 [|c4 key]]]]; cbn; try discriminate;
    destruct unit; cbn; discriminate.
Qed.

Lemma cells_of_run u m : forall rd row c,
  cells_of u m rd = Ok row ->
  dict_lookup "Run" rd = Some c -> dict_lookup "Run" row = Some c.
Proof.
  induction m as [|[k v] m IH]; intros rd row c H Hc; cbn [cells_of] in H.
  - now injection H as <-.
  - apply rbind_ok in H as (txt & _ & H). apply (IH _ _ _ H).
    rewrite dict_lookup_set.
    destruct (String.eqb_spec "Run" (column_label k (dict_get k "" u))) as [E|_];
      [|exact Hc].
    symmetry in E. now apply column_label_not_run in E.
Qed.

Lemma run_cells_nth fieldnames row n key :
  nth_error fieldnames n = Some key ->
  nth_error (run_cells fieldnames row) n
  = Some (match dict_lookup key row with Some c => c | None => "" end).
Proof.
  intros H. unfold run_cells. rewrite nth_error_map, H. reflexivity.
Qed.

Lemma parsed_keys w p m u :
  parsed w p = Ok (m, u) -> m = [] \/ dict_keys m = metric_names.
Proof.
  unfold parsed. destruct (parse_fio_output w p) as [evs r] eqn:Hp.
  cbn [snd]. intros ->. destruct m as [|kv m']; [now left|right].
  destruct (parse_nonempty _ _ _ _ _ Hp) as (data & j & _ & _ & Hjm & _);
    [discriminate|].
  destruct (job_metrics_ok _ _ _ Hjm)
    as (rd & wd & total & bw_sum & bw & avg & sd & lu & iops
        & _ & _ & _ & _ & _ & _ & _ & -> & _).
  reflexivity.
Qed.

Lemma mapM_Forall {A B : Type} (f : A -> result B) (P : B -> Prop) l : forall l',
  mapM f l = Ok l' -> (forall x y, f x = Ok y -> P y) -> Forall P l'.
Proof.
  induction l as [|x l IH]; intros l' H HP; cbn [mapM] in H.
  - injection H as <-. constructor.
  - apply rbind_ok in H as (y & Hy & H). apply rbind_ok in H as (ys & Hys & H).
    injection H as <-. constructor; [eapply HP; eassumption|].
    now apply IH.
Qed.

Lemma mapM_length {A B : Type} (f : A -> result B) l : forall l',
  mapM f l = Ok l' -> List.length l' = List.length l.
Proof.
  induction l as [|x l IH]; intros l' H; cbn [mapM] in H.
  - now injection H as <-.
  - apply rbind_ok in H as (y & Hy & H). apply rbind_ok in H as (ys & Hys & H).
    injection H as <-. cbn. f_equal. now apply IH.
Qed.

Lemma metric_names_NoDup : NoDup metric_names.
Proof.
  unfold metric_names.
  repeat (constructor; [cbn; intuition discriminate|]). constructor.
Qed.

(** After the loop, the series of every metric holds the values of the
    runs that gave metrics, in run order. *)
Lemma process_runs_series w files evs st :
  process_runs w acc0 0 files = (evs, Ok st) ->
  exists runs rows,
    mapM (parsed w) files = Ok runs
    /\ rows_of 0 runs = Ok rows
    /\ individual_run_data st = rows
    /\ avg_latency_values st = valid_latencies "avg_latency" runs
    /\ stdev_latency_values st = valid_latencies "stdev_latency" runs
    /\ forall k, dict_get k [] (all_metrics st) = series_of k (map fst runs).
Proof.
  intros H.
  assert (absorb_files w acc0 0 files = Ok st) as Ha
    by now rewrite <- process_runs_snd, H.
  destruct (absorb_files_runs _ _ _ _ _ Ha)
    as (runs & rows & Hruns & Hrows & Hird & Ham & Havg & Hsd & _).
  exists runs, rows. repeat split; try assumption.
  intros k. rewrite Ham. cbn [acc0 all_metrics].
  rewrite series_after_runs; [reflexivity|].
  apply Forall_map.
  apply (mapM_Forall _ _ _ _ Hruns). intros p [m u] Hp. cbn [fst].
  destruct (parsed_keys _ _ _ _ Hp) as [->| ->]; [constructor|].
  apply metric_names_NoDup.
Qed.

Lemma fieldnames_of_first_seen rows :
  fieldnames_of rows
  = "Run" :: first_seen ["Run"] (flat_map (@dict_keys string) rows).
Proof. unfold fieldnames_of. now rewrite fieldnames_fold. Qed.

Lemma cells_of_labels u m i row :
  cells_of u m [run_cell i] = Ok row ->
  dict_keys row = "Run" :: first_seen ["Run"] (labels_of m u)
  /\ dict_lookup "Run" row = Some (str_of_int (Z.of_nat i + 1)).
Proof.
  intros H. split.
  - rewrite (cells_of_keys _ _ _ _ H), add_fieldnames_first_seen. reflexivity.
  - apply (cells_of_run _ _ _ _ _ H). reflexivity.
Qed.

(** C8, as the code has it: the per-run table has one row for each run
    that gave metrics, numbered by the position of the run; a row is keyed
    by the labels [name (unit)] of its metrics; the columns are ["Run"]
    followed by every label met, once, in the order met, so that a metric
    whose unit differs between runs has a column for each unit; the cell of
    a row under a label it does not have is empty, and the cells stay under
    their own labels.  The series behind the statistics hold the values of
    exactly the runs that gave metrics.  With three documents expected and
    the second missing, the report has the rows of runs 1 and 3 and
    statistics over two values. *)
Theorem per_run_table_by_label :
  (forall w files evs st,
     process_runs w acc0 0 files = (evs, Ok st) ->
     exists runs rows,
       mapM (parsed w) files = Ok runs
       /\ rows_of 0 runs = Ok rows
       /\ individual_run_data st = rows
       /\ List.length rows = List.length (filter nonempty_run runs)
       /\ forall k, dict_get k [] (all_metrics st) = series_of k (map fst runs))
  /\ (forall u m i row,
        cells_of u m [run_cell i] = Ok row ->
        dict_keys row = "Run" :: first_seen ["Run"] (labels_of m u)
        /\ dict_lookup "Run" row = Some (str_of_int (Z.of_nat i + 1)))
  /\ (forall rows,
        fieldnames_of rows
        = "Run" :: first_seen ["Run"] (flat_map (@dict_keys string) rows)
        /\ NoDup (fieldnames_of rows)
        /\ forall x,
             In x (fieldnames_of rows)
             <-> x = "Run" \/ In x (flat_map (@dict_keys string) rows))
  /\ (forall fieldnames row,
        List.length (run_cells fieldnames row) = List.length fieldnames
        /\ forall n key,
             nth_error fieldnames n = Some key ->
             nth_error (run_cells fieldnames row) n
             = Some (match dict_lookup key row with Some c => c | None => "" end))
  /\ (exists evs,
        main world_run2_missing args3 = (evs, Ok tt)
        /\ written evs = [("out.csv", report_run2_missing)]).
Proof.
  split; [|split; [|split; [|split]]].
  - intros w files evs st H.
    destruct (process_runs_series _ _ _ _ H)
      as (runs & rows & Hruns & Hrows & Hird & _ & _ & Hser).
    exists runs, rows. repeat split; try assumption.
    exact (rows_of_length _ _ _ Hrows).
  - intros u m i row. apply cells_of_labels.
  - intros rows. rewrite fieldnames_of_first_seen. split; [reflexivity|]. split.
    + apply (first_seen_NoDup _ ["Run"]). repeat constructor. simpl. tauto.
    + intros x.
      change ("Run" :: first_seen ["Run"] (flat_map (@dict_keys string) rows))
        with (["Run"] ++ first_seen ["Run"] (flat_map (@dict_keys string) rows))%list.
      rewrite first_seen_In. simpl. intuition congruence.
  - intros fieldnames row. split.
    + unfold run_cells. apply length_map.
    + intros n key. apply run_cells_nth.
  - eexists. split; vm_compute; reflexivity.
Qed.

Lemma per_run_table_by_label_witness :
  exists runs rows,
    mapM (parsed world_run2_missing) files3 = Ok runs
    /\ rows_of 0 runs = Ok rows
    /\ List.length rows = 2%nat
    /\ List.length runs = 3%nat.
Proof.
  destruct (process_runs world_run2_missing acc0 0 files3) as [evs [st|e]] eqn:H.
  - destruct (proj1 per_run_table_by_label _ _ _ _ H)
      as (runs & rows & Hruns & Hrows & _ & Hlen & _).
    exists runs, rows. split; [exact Hruns|]. split; [exact Hrows|].
    vm_compute in Hruns. injection Hruns as <-.
    split; [rewrite Hlen|]; reflexivity.
  - vm_compute in H. discriminate.
Defined.

(** C8, as the specification states it, fails: the columns are not the
    metric names seen across the runs, each with its unit.  With run 1
    reporting its latency in ms and run 3 having none, the runs show seven
    metric names, and the table has nine metric columns: [avg_latency] and
    [stdev_latency] each appear under ["ms"] and under ["N/A"]. *)
Lemma per_run_columns_split_by_unit :
  exists evs st,
    process_runs world_mixed_units acc0 0 files3 = (evs, Ok st)
    /\ dict_keys (all_metrics st) = metric_names
    /\ individual_section (individual_run_data st) = runs_mixed_units
    /\ List.length (fieldnames_of (individual_run_data st)) = 10%nat
    /\ List.length ("Run" :: metric_names) = 8%nat.
Proof.
  eexists. eexists. repeat split; vm_compute; reflexivity.
Qed.

(** ** The summary table and the latency rows *)

(** C9: every series that the loop of [main] registers holds at least one
    value, so every metric of the summary table has data; and the row of a
    metric with an empty series is a "No data" row, not an error. *)
Theorem registered_series_have_data :
  (forall w files evs st,
     process_runs w acc0 0 files = (evs, Ok st) ->
     forall name values, In (name, values) (all_metrics st) -> values <> [])
  /\ (forall gum name,
        summary_row gum name []
        = Ok [display_name name; "No data"; "N/A"; "N/A"; "N/A"; "N/A"])
  /\ aggregate {| all_metrics := [("iops", [])];
                  global_units_map := [];
                  avg_latency_values := [];
                  stdev_latency_values := [];
                  individual_run_data := [] |}
     = Ok [summary_header; ["Iops"; "No data"; "N/A"; "N/A"; "N/A"; "N/A"]].
Proof.
  split; [|split; reflexivity].
  intros w files evs st H name values Hin.
  assert (absorb_files w acc0 0 files = Ok st) as Ha
    by now rewrite <- process_runs_snd, H.
  assert (series_nonempty (all_metrics st)) as Hne
    by (eapply absorb_files_nonempty; [exact Ha|constructor]).
  unfold series_nonempty in Hne. rewrite Forall_forall in Hne.
  exact (Hne _ Hin).
Qed.

Lemma registered_series_have_data_witness :
  exists evs st,
    process_runs world_run2_missing acc0 0 files3 = (evs, Ok st)
    /\ Forall (fun kv => snd kv <> []) (all_metrics st).
Proof.
  destruct (process_runs world_run2_missing acc0 0 files3) as [evs [st|e]] eqn:H.
  - exists evs, st. split; [reflexivity|]. apply Forall_forall.
    intros [name values] Hin.
    exact (proj1 registered_series_have_data _ _ _ _ H name values Hin).
  - vm_compute in H. discriminate.
Defined.





(** ** The statistics of a series of floats *)















(** * Further properties of the script *)

(** ** The Extractor on documents as FIO writes them *)

Lemma float_of_int_nonneg z :
  0 <= z < 2 ^ 53 -> exists f, float_of_int z = Ok f.
Proof.
  intros Hz. destruct (Z.eq_dec z 0) as [->|Hnz]; [eexists; reflexivity|].
  destruct (of_Z_small z) as (m & e & Hf); [lia|].
  exists (S754_finite false m e). unfold float_of_int. now rewrite Hf.
Qed.

Lemma fio_number_sum a b :
  fio_number a = true -> fio_number b = true ->
  exists c, py_add a b = Ok c /\ fio_sum c = true.
Proof.
  destruct a as [| |x|f| | |], b as [| |y|g| | |]; try discriminate; cbn [fio_number];
    intros Ha Hb.
  - apply andb_true_iff in Ha as [Ha1 Ha2], Hb as [Hb1 Hb2].
    apply Z.leb_le in Ha1, Hb1. apply Z.ltb_lt in Ha2, Hb2.
    exists (PyInt (x + y)). split; [reflexivity|]. cbn [fio_sum].
    apply andb_true_iff. split; [apply Z.leb_le; lia|apply Z.ltb_lt].
    change (2 ^ 53) with (2 ^ 52 + 2 ^ 52). lia.
  - apply andb_true_iff in Ha as [Ha1 Ha2].
    apply Z.leb_le in Ha1. apply Z.ltb_lt in Ha2.
    destruct (float_of_int_nonneg x) as (fx & Hfx);
      [change (2 ^ 53) with (2 ^ 52 + 2 ^ 52); lia|].
    exists (PyFloat (F64.add fx g)). split; [|reflexivity].
    cbn [py_add as_number num_binop number_to_float]. rewrite Hfx. reflexivity.
  - apply andb_true_iff in Hb as [Hb1 Hb2].
    apply Z.leb_le in Hb1. apply Z.ltb_lt in Hb2.
    destruct (float_of_int_nonneg y) as (fy & Hfy);
      [change (2 ^ 53) with (2 ^ 52 + 2 ^ 52); lia|].
    exists (PyFloat (F64.add f fy)). split; [|reflexivity].
    cbn [py_add as_number num_binop number_to_float rbind]. rewrite Hfy. reflexivity.
  - exists (PyFloat (F64.add f g)). split; reflexivity.
Qed.

Lemma fio_sum_truediv c factor :
  fio_sum c = true -> F64.is_zero factor = false ->
  exists f, py_truediv c (PyFloat factor) = Ok (PyFloat f).
Proof.
  destruct c as [| |x|f| | |]; try discriminate; cbn [fio_sum]; intros Hc Hz.
  - apply andb_true_iff in Hc as [Hc1 Hc2].
    apply Z.leb_le in Hc1. apply Z.ltb_lt in Hc2.
    destruct (float_of_int_nonneg x) as (fx & Hfx); [lia|].
    exists (F64.div fx factor).
    cbn [py_truediv as_number number_to_float]. rewrite Hfx. cbn [rbind].
    now rewrite Hz.
  - exists (F64.div f factor).
    cbn [py_truediv as_number number_to_float rbind]. now rewrite Hz.
Qed.

Lemma fio_number_is_sum v : fio_number v = true -> fio_sum v = true.
Proof.
  destruct v as [| |x|f| | |]; try discriminate; cbn; [|reflexivity].
  intros H. apply andb_true_iff in H as [H1 H2].
  apply Z.leb_le in H1. apply Z.ltb_lt in H2.
  apply andb_true_iff. split; [apply Z.leb_le; lia|apply Z.ltb_lt].
  change (2 ^ 53) with (2 ^ 52 + 2 ^ 52). lia.
Qed.

Lemma absent_or_get (P : pyval -> bool) k dflt d :
  absent_or P (dict_lookup k d) = true -> P dflt = true ->
  P (dict_get k dflt d) = true.
Proof. unfold dict_get. now destruct (dict_lookup k d). Qed.

Lemma fio_side_of j side :
  absent_or fio_side (dict_lookup side j) = true ->
  exists s, side_of j side = Some s /\ fio_side (PyDict s) = true.
Proof.
  unfold side_of. destruct (dict_lookup side j) as [v|]; cbn [absent_or].
  - destruct v; try discriminate. eauto.
  - intros _. exists []. split; reflexivity.
Qed.

Lemma candidate_fio j side field factor l fac s :
  side_of j side = Some s -> fio_side (PyDict s) = true ->
  In field ["lat_ns"; "lat_us"; "lat_ms"] ->
  candidate j (side, field, factor) = Some (l, fac) ->
  fio_latency l = true /\ fac = factor.
Proof.
  intros Hs Hside Hfield. unfold candidate, field_or. rewrite Hs.
  destruct (truthy (dict_get field PyNone s)) eqn:Ht; [|discriminate].
  intros H. injection H as <- <-. split; [|reflexivity].
  pose proof (truthy_get_lookup _ _ Ht) as Hl.
  cbn [fio_side] in Hside. repeat (apply andb_true_iff in Hside as [Hside ?]).
  cbn [In] in Hfield.
  destruct Hfield as [<-|[<-|[<-|[]]]];
    unfold dict_get in *;
    match goal with
    | |- context [dict_lookup ?f s] => destruct (dict_lookup f s)
    end; (assumption || discriminate).
Qed.

Lemma first_candidate_fio j l factor :
  fio_job j = true -> first_candidate j = Some (l, factor) ->
  fio_latency l = true /\ F64.is_zero factor = false.
Proof.
  unfold fio_job. intros Hj Hc.
  repeat (apply andb_true_iff in Hj as [Hj ?]).
  destruct (fio_side_of j "read") as (rd & Hrd & Hrs); [assumption|].
  destruct (fio_side_of j "write") as (wd & Hwd & Hws); [assumption|].
  apply first_some_in in Hc as ([[side field] fac] & Hin & Hcand).
  unfold latency_candidates in Hin. cbn [In] in Hin.
  destruct Hin as [E|[E|[E|[E|[E|[E|[]]]]]]]; injection E as <- <- <-;
    first [ apply (candidate_fio _ _ _ _ _ _ _ Hrd Hrs) in Hcand; [|cbn; tauto]
          | apply (candidate_fio _ _ _ _ _ _ _ Hwd Hws) in Hcand; [|cbn; tauto] ];
    destruct Hcand as [Hl ->]; (split; [exact Hl|reflexivity]).
Qed.

Lemma latency_metrics_fio j :
  fio_job j = true -> exists lat, latency_metrics j = Ok lat.
Proof.
  intros Hj. unfold latency_metrics.
  destruct (first_candidate j) as [[l factor]|] eqn:Hc; [|eexists; reflexivity].
  destruct (first_candidate_fio _ _ _ Hj Hc) as [Hl Hz].
  destruct l as [| | | | | |ld]; try discriminate. cbn [fio_latency] in Hl.
  apply andb_true_iff in Hl as [Hm Hs]. cbn [py_get rbind].
  destruct (fio_sum_truediv (dict_get "mean" (PyInt 0) ld) factor) as (avg & Ha);
    [apply fio_number_is_sum, absent_or_get; [exact Hm|reflexivity] | exact Hz |].
  destruct (fio_sum_truediv (dict_get "stddev" (PyInt 0) ld) factor) as (sd & Hsd);
    [apply fio_number_is_sum, absent_or_get; [exact Hs|reflexivity] | exact Hz |].
  rewrite Ha. cbn [rbind]. rewrite Hsd. cbn [rbind]. eexists. reflexivity.
Qed.

Lemma job_metrics_fio j :
  fio_job j = true ->
  exists m u, job_metrics j = Ok (m, u) /\ dict_keys m = metric_names.
Proof.
  intros Hj. pose proof Hj as Hj'. unfold fio_job in Hj'.
  repeat (apply andb_true_iff in Hj' as [Hj' ?]).
  destruct (fio_side_of j "read") as (rd & Hrd & Hrs); [assumption|].
  destruct (fio_side_of j "write") as (wd & Hwd & Hws); [assumption|].
  cbn [fio_side] in Hrs, Hws.
  repeat (apply andb_true_iff in Hrs as [Hrs ?]).
  repeat (apply andb_true_iff in Hws as [Hws ?]).
  unfold job_metrics. rewrite Hrd, Hwd. cbv zeta.
  destruct (fio_number_sum (dict_get "usr_cpu" (PyInt 0) j)
              (dict_get "sys_cpu" (PyInt 0) j)) as (total & Ht & _);
    [now apply absent_or_get | now apply absent_or_get |].
  destruct (fio_number_sum (dict_get "bw" (PyInt 0) rd) (dict_get "bw" (PyInt 0) wd))
    as (bw_sum & Hb & Hbs); [now apply absent_or_get | now apply absent_or_get |].
  destruct (fio_sum_truediv bw_sum f1024 Hbs eq_refl) as (bw & Hbw).
  destruct (latency_metrics_fio j Hj) as (lat & Hl).
  destruct (fio_number_sum (dict_get "iops" (PyInt 0) rd) (dict_get "iops" (PyInt 0) wd))
    as (iops & Hi & _); [now apply absent_or_get | now apply absent_or_get |].
  rewrite Ht. cbn [rbind]. rewrite Hb. cbn [rbind]. rewrite Hbw. cbn [rbind].
  rewrite Hl. cbn [rbind]. rewrite Hi. cbn [rbind].
  eexists. eexists. split; reflexivity.
Qed.

(** X1: a document whose first job has the field types FIO writes (floats,
    or non-negative integers below 2^52; [read], [write] and the latency
    objects absent or objects) is always extracted: [parse_fio_output]
    raises nothing, prints nothing, and returns the seven metrics, each
    with its unit. *)
Theorem fio_document_is_extracted (w : world) (p : string) (data : pyval)
  (j : list (string * pyval)) :
  fs_read w p = Ok data -> first_job data = Some j -> fio_job j = true ->
  exists m u,
    parse_fio_output w p = ([OpenRead p], Ok (m, u))
    /\ dict_keys m = metric_names /\ dict_keys u = metric_names.
Proof.
  intros Hr Hj Hfio.
  destruct (job_metrics_fio j Hfio) as (m & u & Hjm & Hkeys).
  exists m, u. split; [|split; [exact Hkeys|]].
  - rewrite (parse_loaded _ _ _ Hr), (extract_first_job _ _ Hj). f_equal.
    apply extract_job_iff. eauto.
  - destruct (job_metrics_ok _ _ _ Hjm)
      as (rd & wd & total & bw_sum & bw & avg & sd & lu & iops
          & _ & _ & _ & _ & _ & _ & _ & _ & ->).
    reflexivity.
Qed.

Lemma fio_document_is_extracted_witness :
  exists m u,
    parse_fio_output world_run2_missing "fio1.json"
    = ([OpenRead "fio1.json"], Ok (m, u))
    /\ dict_keys m = metric_names /\ dict_keys u = metric_names.
Proof.
  eapply (fio_document_is_extracted world_run2_missing "fio1.json" doc_read_ns);
    reflexivity.
Defined.

(** X2: in every non-empty result, [cpu_usr] and [cpu_sys] are the job's
    [usr_cpu] and [sys_cpu] (the integer 0 when absent), [cpu_total] is
    their Python sum, which for two floats is their binary64 sum, and the
    three carry the unit ["%"]. *)
Theorem cpu_total_is_usr_plus_sys (w : world) (p : string) (evs : list event)
  (m : metrics_t) (u : units_t) :
  parse_fio_output w p = (evs, Ok (m, u)) -> m <> [] ->
  exists data j total,
    fs_read w p = Ok data /\ first_job data = Some j
    /\ dict_lookup "cpu_usr" m = Some (dict_get "usr_cpu" (PyInt 0) j)
    /\ dict_lookup "cpu_sys" m = Some (dict_get "sys_cpu" (PyInt 0) j)
    /\ dict_lookup "cpu_total" m = Some total
    /\ py_add (dict_get "usr_cpu" (PyInt 0) j) (dict_get "sys_cpu" (PyInt 0) j)
       = Ok total
    /\ (forall a b,
          dict_lookup "usr_cpu" j = Some (PyFloat a) ->
          dict_lookup "sys_cpu" j = Some (PyFloat b) ->
          total = PyFloat (F64.add a b))
    /\ dict_lookup "cpu_usr" u = Some "%"
    /\ dict_lookup "cpu_sys" u = Some "%"
    /\ dict_lookup "cpu_total" u = Some "%".
Proof.
  intros H Hm.
  destruct (parse_nonempty _ _ _ _ _ H Hm) as (data & j & Hr & Hj & Hjm & _).
  destruct (job_metrics_ok _ _ _ Hjm)
    as (rd & wd & total & bw_sum & bw & avg & sd & lu & iops
        & _ & _ & Ht & _ & _ & _ & _ & -> & ->).
  exists data, j, total. repeat split; try assumption.
  intros a b Ha Hb. unfold dict_get in Ht. rewrite Ha, Hb in Ht.
  cbn in Ht. now injection Ht as <-.
Qed.

Lemma cpu_total_is_usr_plus_sys_witness :
  exists data j total,
    fs_read world_run2_missing "fio1.json" = Ok data
    /\ first_job data = Some j
    /\ py_add (dict_get "usr_cpu" (PyInt 0) j) (dict_get "sys_cpu" (PyInt 0) j)
       = Ok total
    /\ py_format_2f total = Ok "15.00".
Proof.
  destruct (cpu_total_is_usr_plus_sys world_run2_missing "fio1.json"
              [OpenRead "fio1.json"]
              (fst (match extract doc_read_ns with Ok r => r | Raise _ => ([], []) end))
              (snd (match extract doc_read_ns with Ok r => r | Raise _ => ([], []) end)))
    as (data & j & total & Hr & Hj & _ & _ & _ & Ht & _).
  - vm_compute. reflexivity.
  - vm_compute. discriminate.
  - exists data, j, total. split; [exact Hr|]. split; [exact Hj|]. split; [exact Ht|].
    vm_compute in Hr. injection Hr as <-. vm_compute in Hj. injection Hj as <-.
    vm_compute in Ht. injection Ht as <-. vm_compute. reflexivity.
Defined.

(** X3: in every non-empty result, [iops] is the Python sum of the read
    and the write IOPS of the job, each the integer 0 when the side or the
    field is absent, with the unit ["ops/s"]; nothing is divided. *)
Theorem iops_is_read_plus_write (w : world) (p : string) (evs : list event)
  (m : metrics_t) (u : units_t) :
  parse_fio_output w p = (evs, Ok (m, u)) -> m <> [] ->
  exists data j iops,
    fs_read w p = Ok data /\ first_job data = Some j
    /\ py_add (field_or (PyInt 0) j "read" "iops")
              (field_or (PyInt 0) j "write" "iops") = Ok iops
    /\ dict_lookup "iops" m = Some iops
    /\ dict_lookup "iops" u = Some "ops/s".
Proof.
  intros H Hm.
  destruct (parse_nonempty _ _ _ _ _ H Hm) as (data & j & Hr & Hj & Hjm & _).
  destruct (job_metrics_ok _ _ _ Hjm)
    as (rd & wd & total & bw_sum & bw & avg & sd & lu & iops
        & Hrd & Hwd & _ & _ & _ & _ & Hi & -> & ->).
  exists data, j, iops. unfold field_or. rewrite Hrd, Hwd.
  repeat split; assumption.
Qed.

Lemma iops_is_read_plus_write_witness :
  exists data j iops,
    fs_read world_run2_missing "fio3.json" = Ok data
    /\ first_job data = Some j
    /\ field_or (PyInt 0) j "read" "iops" = PyInt 0
    /\ dict_lookup "iops" (fst (match extract data with
                                 | Ok r => r
                                 | Raise _ => ([], [])
                                 end)) = Some iops
    /\ py_format_2f iops = Ok "200.00".
Proof.
  destruct (iops_is_read_plus_write world_run2_missing "fio3.json"
              [OpenRead "fio3.json"]
              (fst (match extract doc_write_us with Ok r => r | Raise _ => ([], []) end))
              (snd (match extract doc_write_us with Ok r => r | Raise _ => ([], []) end)))
    as (data & j & iops & Hr & Hj & Hi & Hl & _).
  - vm_compute. reflexivity.
  - vm_compute. discriminate.
  - exists data, j, iops. split; [exact Hr|]. split; [exact Hj|].
    vm_compute in Hr. injection Hr as <-. vm_compute in Hj. injection Hj as <-.
    vm_compute in Hi. injection Hi as <-.
    repeat split; vm_compute; reflexivity.
Defined.

Lemma extract_jobs_head d job rest :
  dict_lookup "jobs" d = Some (PyList (job :: rest)) ->
  extract (PyDict d) = extract_job job [] [].
Proof.
  intros Hj. unfold extract. cbn [py_contains rbind]. unfold dict_mem.
  rewrite Hj. cbn [py_getitem rbind]. rewrite Hj. reflexivity.
Qed.

(** X4: only the first entry of ["jobs"] is read.  Two loaded objects
    whose job lists start with the same entry give the same outcome, the
    same metrics or the same exception, whatever follows in the lists and
    whatever else the objects hold. *)
Theorem only_first_job_counts (d d' : list (string * pyval)) (job : pyval)
  (rest rest' : list pyval) :
  dict_lookup "jobs" d = Some (PyList (job :: rest)) ->
  dict_lookup "jobs" d' = Some (PyList (job :: rest')) ->
  extract (PyDict d) = extract (PyDict d').
Proof.
  intros H H'. now rewrite (extract_jobs_head _ _ _ H), (extract_jobs_head _ _ _ H').
Qed.

Lemma only_first_job_counts_witness :
  extract (PyDict [("jobs", PyList [PyDict [("usr_cpu", fl 10)]; PyInt 7]);
                   ("disk_util", PyList [])])
  = extract (PyDict [("fio version", PyStr "fio-3.33");
                     ("jobs", PyList [PyDict [("usr_cpu", fl 10)]])]).
Proof.
  apply (only_first_job_counts _ _ (PyDict [("usr_cpu", fl 10)]) [PyInt 7] []);
    reflexivity.
Defined.

(** ** The generated filenames *)

Lemma str_of_int_inj a b : str_of_int a = str_of_int b -> a = b.
Proof.
  unfold str_of_int. intros H.
  assert (forall z, NilZero.int_of_string (NilZero.string_of_int (Z.to_int z))
                    = Some (Z.to_int z)) as Hisi.
  { intros z. apply NilZero.isi; destruct z; cbn; try discriminate;
      intros E; injection E as E; now apply DecimalPos.Unsigned.to_uint_nonnil in E. }
  pose proof (Hisi a) as Ha. rewrite H, Hisi in Ha. injection Ha as Ha.
  now rewrite <- (DecimalZ.of_to a), <- (DecimalZ.of_to b), Ha.
Qed.

Lemma append_length s t : String.length (s ++ t) = (String.length s + String.length t)%nat.
Proof. induction s as [|c s IH]; cbn; [reflexivity|now rewrite IH]. Qed.

Lemma append_inv_head p s t : p ++ s = p ++ t -> s = t.
Proof. induction p as [|c p IH]; cbn; [auto|]. intros H. injection H as H. auto. Qed.

Lemma append_inv_tail x : forall s t, s ++ x = t ++ x -> s = t.
Proof.
  induction s as [|c s IH]; intros [|c' t] H; cbn in H.
  - reflexivity.
  - apply (f_equal String.length) in H. cbn in H. rewrite append_length in H. lia.
  - apply (f_equal String.length) in H. cbn in H. rewrite append_length in H. lia.
  - injection H as -> H. f_equal. now apply IH.
Qed.

Lemma NoDup_map_inj {A B : Type} (f : A -> B) (l : list A) :
  (forall x y, f x = f y -> x = y) -> NoDup l -> NoDup (map f l).
Proof.
  intros Hf. induction 1 as [|x l Hx Hl IH]; cbn; constructor; [|exact IH].
  intros Hin. apply in_map_iff in Hin as (y & Hy & Hin).
  apply Hf in Hy. now subst.
Qed.

Lemma range1_NoDup n : NoDup (range1 n).
Proof.
  unfold range1. apply NoDup_map_inj; [|apply seq_NoDup].
  intros x y. apply Nat2Z.inj.
Qed.

(** X5: the names [generate_fio_filenames] returns are pairwise distinct,
    whatever the count and the prefix: no run document is named twice. *)
Theorem filenames_are_distinct (num_iterations prefix : pyval) (files : list string) :
  generate_fio_filenames num_iterations prefix = Ok files -> NoDup files.
Proof.
  unfold generate_fio_filenames.
  destruct (match num_iterations with
            | PyInt z => Some z
            | PyBool b => Some (if b then 1 else 0)
            | _ => None
            end) as [n|]; [|discriminate].
  destruct (n <=? 0); [discriminate|].
  destruct prefix as [| | | |s| |]; try discriminate.
  destruct (String.eqb s ""); [discriminate|].
  intros H. injection H as <-.
  apply NoDup_map_inj; [|apply range1_NoDup].
  intros x y E. apply append_inv_head, append_inv_tail in E.
  now apply str_of_int_inj.
Qed.

Lemma filenames_are_distinct_witness :
  NoDup ["fio1.json"; "fio2.json"; "fio3.json"].
Proof.
  apply (filenames_are_distinct (PyInt 3) (PyStr "fio")). reflexivity.
Defined.

(** X6: names are returned only for a count that is an [int] (a [bool]
    counts, as 0 or 1) and is positive, together with a non-empty string
    prefix; a count of another type, a float such as 3.0 included, is
    refused with the message about the count, before the prefix is looked
    at. *)
Theorem filenames_need_int_count :
  (forall num_iterations prefix files,
     generate_fio_filenames num_iterations prefix = Ok files ->
     exists n s,
       (num_iterations = PyInt n \/ (num_iterations = PyBool true /\ n = 1))
       /\ 0 < n /\ prefix = PyStr s /\ s <> ""
       /\ files = map (fun i => s ++ str_of_int i ++ ".json") (range1 n))
  /\ (forall num_iterations prefix,
        (forall z, num_iterations <> PyInt z) ->
        (forall b, num_iterations <> PyBool b) ->
        generate_fio_filenames num_iterations prefix
        = Raise (ValueError "num_iterations must be a positive integer."))
  /\ (forall prefix,
        generate_fio_filenames (PyBool false) prefix
        = Raise (ValueError "num_iterations must be a positive integer."))
  /\ (forall s,
        s <> "" ->
        generate_fio_filenames (PyBool true) (PyStr s) = Ok [s ++ "1.json"]).
Proof.
  repeat split.
  - intros v prefix files. unfold generate_fio_filenames.
    destruct v as [|b|z| | | |]; try discriminate.
    + destruct b; cbn [Z.leb Z.compare]; [|discriminate].
      destruct prefix as [| | | |s| |]; try discriminate.
      destruct (String.eqb_spec s "") as [|Hs]; [discriminate|].
      intros E. injection E as <-. exists 1, s. repeat split; auto; lia.
    + destruct (Z.leb_spec z 0) as [|Hz]; [discriminate|].
      destruct prefix as [| | | |s| |]; try discriminate.
      destruct (String.eqb_spec s "") as [|Hs]; [discriminate|].
      intros E. injection E as <-. exists z, s. repeat split; auto.
  - intros v prefix Hz Hb. unfold generate_fio_filenames.
    destruct v; try reflexivity; [now elim (Hb b)|now elim (Hz z)].
  - intros s Hs. unfold generate_fio_filenames. cbn [Z.leb Z.compare].
    destruct (String.eqb_spec s ""); [contradiction|reflexivity].
Qed.

Lemma filenames_need_int_count_witness :
  generate_fio_filenames (PyFloat (F64.of_Z 3)) (PyStr "fio")
  = Raise (ValueError "num_iterations must be a positive integer.")
  /\ generate_fio_filenames (PyBool true) (PyStr "fio") = Ok ["fio1.json"].
Proof.
  split.
  - apply (proj1 (proj2 filenames_need_int_count)); intros; discriminate.
  - apply (proj2 (proj2 (proj2 filenames_need_int_count)) "fio"). discriminate.
Defined.

(** ** The trace of [main] *)

Lemma fst_mbind {A B : Type} (m : M A) (k : A -> M B) :
  fst (mbind m k)
  = (fst m ++ match snd m with Ok a => fst (k a) | Raise _ => [] end)%list.
Proof.
  destruct m as [l [a|e]]; cbn; [|now rewrite app_nil_r]. now destruct (k a).
Qed.

Lemma mbind_pair {A B : Type} (m : M A) (k : A -> M B) :
  mbind m k
  = ((fst m ++ match snd m with Ok a => fst (k a) | Raise _ => [] end)%list,
     rbind (snd m) (fun a => snd (k a))).
Proof. rewrite <- fst_mbind, <- snd_mbind. now destruct (mbind m k). Qed.

(** [main] from the loop on: what it prints and returns for each outcome
    of the loop and of the summary. *)
Lemma main_outcomes w a files :
  generate_fio_filenames (PyInt (iterations a)) (PyStr (output_filepath a)) = Ok files ->
  main w a
  = match process_runs w acc0 0 files with
    | (evs, Raise e) => (banner :: evs, Raise e)
    | (evs, Ok st) =>
        match all_metrics st with
        | [] =>
            (banner :: evs
               ++ [Print "No metrics extracted from any FIO output files. Exiting."],
             Ok tt)%list
        | _ :: _ =>
            match aggregate st with
            | Raise e => (banner :: evs, Raise e)
            | Ok rows => (banner :: evs ++ report_events w a st rows, Ok tt)%list
            end
        end
    end.
Proof.
  intros Hf. unfold main, report_events, banner. rewrite Hf.
  cbn [lift mbind print emit app].
  destruct (process_runs w acc0 0 files) as [evs [st|e]]; [|reflexivity].
  cbn [mbind].
  destruct (all_metrics st) as [|kv am]; [reflexivity|].
  destruct (aggregate st) as [rows|e]; cbn [mbind];
    [|now rewrite app_nil_r].
  destruct (fs_write w (csv_output a)); reflexivity.
Qed.

Lemma record_items_no_read u items : forall am rd,
  filter is_read (fst (record_items u items am rd)) = [].
Proof.
  induction items as [|[key value] rest IH]; intros am rd; [reflexivity|].
  cbn [record_items]. rewrite fst_mbind. cbn [lift fst snd app].
  destruct (py_format_2f value) as [txt|e]; [|reflexivity].
  rewrite fst_mbind. cbn [print emit fst snd app filter is_read]. apply IH.
Qed.

(** One turn of the loop opens its document, and only it, whatever the
    outcome. *)
Lemma process_run_reads w st i p :
  filter is_read (fst (process_run w st i p)) = [OpenRead p].
Proof.
  unfold process_run. rewrite fst_mbind. cbn [print emit fst snd app filter is_read].
  rewrite fst_mbind, filter_app, parse_fio_output_reads.
  destruct (snd (parse_fio_output w p)) as [[m u]|e]; [|reflexivity].
  destruct m as [|kv m']; [reflexivity|].
  rewrite fst_mbind. cbn [print emit fst snd app filter is_read].
  rewrite fst_mbind, filter_app, record_items_no_read.
  destruct (snd (record_items _ _ _ _)) as [[am rd]|e]; reflexivity.
Qed.

Lemma process_runs_reads w files : forall st i,
  exists k,
    filter is_read (fst (process_runs w st i files)) = map OpenRead (firstn k files)
    /\ (forall st', snd (process_runs w st i files) = Ok st' ->
        k = List.length files).
Proof.
  induction files as [|p rest IH]; intros st i.
  - exists 0%nat. split; [reflexivity|]. reflexivity.
  - cbn [process_runs]. rewrite fst_mbind, snd_mbind, filter_app, process_run_reads.
    destruct (snd (process_run w st i p)) as [st1|e].
    + destruct (IH st1 (S i)) as (k & Hk & Hall). exists (S k).
      cbn [firstn map app rbind]. rewrite Hk. split; [reflexivity|].
      intros st' H. cbn [List.length]. f_equal. eapply Hall. exact H.
    + exists 1%nat. split; [reflexivity|]. intros st' H. discriminate.
Qed.

Lemma report_events_shape w a st rows :
  filter is_read (report_events w a st rows) = []
  /\ (List.length (written (report_events w a st rows)) <= 1)%nat.
Proof.
  unfold report_events. destruct (fs_write w (csv_output a)); cbn; split; auto.
Qed.


Lemma silent_written evs : Forall silent evs -> written evs = [].
Proof.
  induction 1 as [|e evs He _ IH]; [reflexivity|].
  unfold written in *. cbn [flat_map]. rewrite IH.
  destruct e; try reflexivity. discriminate.
Qed.

Lemma firstn_length_all {A : Type} (l : list A) : firstn (List.length l) l = l.
Proof. apply firstn_all. Qed.

Lemma main_needs_filenames w a evs r :
  main w a = (evs, r) ->
  (exists files,
     generate_fio_filenames (PyInt (iterations a)) (PyStr (output_filepath a))
     = Ok files)
  \/ (evs = [] /\ exists e, r = Raise e).
Proof.
  unfold main.
  destruct (generate_fio_filenames _ _) as [files|e]; [eauto|].
  cbn. intros H. injection H as <- <-. right. eauto.
Qed.

(** X7: when [main] ends normally it has opened every expected run
    document exactly once, in run order, and no other file. *)
Theorem every_document_opened_once (w : world) (a : args) (evs : list event) :
  main w a = (evs, Ok tt) ->
  exists files,
    generate_fio_filenames (PyInt (iterations a)) (PyStr (output_filepath a))
    = Ok files
    /\ filter is_read evs = map OpenRead files.
Proof.
  intros H. destruct (main_needs_filenames _ _ _ _ H) as [(files & Hf)|(_ & e & He)];
    [|discriminate].
  exists files. split; [exact Hf|].
  rewrite (main_outcomes _ _ _ Hf) in H.
  destruct (process_runs_reads w files acc0 0) as (k & Hk & Hall).
  destruct (process_runs w acc0 0 files) as [evs0 [st|e]]; [|discriminate].
  cbn [fst snd] in Hk, Hall. rewrite (Hall st eq_refl), firstn_all in Hk.
  destruct (all_metrics st) as [|kv am].
  - injection H as <-. cbn [filter is_read banner].
    rewrite filter_app, Hk. cbn. now rewrite app_nil_r.
  - destruct (aggregate st) as [rows|e]; [|discriminate].
    injection H as <-. cbn [filter is_read banner].
    rewrite filter_app, Hk, (proj1 (report_events_shape w a st rows)).
    now rewrite app_nil_r.
Qed.

Lemma every_document_opened_once_witness :
  exists files,
    generate_fio_filenames (PyInt 3) (PyStr "fio") = Ok files
    /\ filter is_read (fst (main world_run2_missing args3)) = map OpenRead files.
Proof.
  apply (every_document_opened_once world_run2_missing args3).
  vm_compute. reflexivity.
Defined.

(** X8: when [main] ends with an exception, whatever its cause, no report
    has been written, and the documents opened are the first ones of the
    expected list. *)
Theorem failure_writes_nothing (w : world) (a : args) (evs : list event) (e : exn) :
  main w a = (evs, Raise e) ->
  written evs = []
  /\ forall files,
       generate_fio_filenames (PyInt (iterations a)) (PyStr (output_filepath a))
       = Ok files ->
       exists k, filter is_read evs = map OpenRead (firstn k files).
Proof.
  intros H. destruct (main_needs_filenames _ _ _ _ H) as [(files & Hf)|(-> & _)].
  - rewrite (main_outcomes _ _ _ Hf) in H.
    pose proof (process_runs_silent w files acc0 0) as Hs.
    destruct (process_runs_reads w files acc0 0) as (k & Hk & _).
    destruct (process_runs w acc0 0 files) as [evs0 [st|e0]]; cbn [fst] in Hs, Hk.
    + destruct (all_metrics st) as [|kv am]; [discriminate|].
      destruct (aggregate st) as [rows|e1]; [discriminate|].
      injection H as <- _. split.
      * apply silent_written. constructor; [reflexivity|exact Hs].
      * intros files' Hf'. rewrite Hf in Hf'. injection Hf' as <-.
        exists k. exact Hk.
    + injection H as <- _. split.
      * apply silent_written. constructor; [reflexivity|exact Hs].
      * intros files' Hf'. rewrite Hf in Hf'. injection Hf' as <-.
        exists k. exact Hk.
  - split; [reflexivity|]. intros files _. exists 0%nat. reflexivity.
Qed.

Lemma failure_writes_nothing_witness :
  written (fst (main world_run2_scalar args3)) = []
  /\ snd (main world_run2_scalar args3) = Raise TypeError.
Proof.
  split; [|vm_compute; reflexivity].
  apply (failure_writes_nothing world_run2_scalar args3 _ TypeError).
  vm_compute. reflexivity.
Defined.

(** X9: in every run of [main] the documents are all read before the
    report is written, and the report is written at most once: the trace
    splits into a part without a write and a part without a read that
    holds at most one write. *)
Theorem report_written_last (w : world) (a : args) :
  exists before after,
    fst (main w a) = (before ++ after)%list
    /\ Forall silent before
    /\ filter is_read after = []
    /\ (List.length (written after) <= 1)%nat.
Proof.
  destruct (main w a) as [evs r] eqn:H.
  destruct (main_needs_filenames _ _ _ _ H) as [(files & Hf)|(-> & _)].
  - rewrite (main_outcomes _ _ _ Hf) in H.
    pose proof (process_runs_silent w files acc0 0) as Hs.
    destruct (process_runs w acc0 0 files) as [evs0 [st|e0]]; cbn [fst] in Hs.
    + destruct (all_metrics st) as [|kv am].
      * injection H as <- _. eexists (banner :: evs0), _. cbn [fst].
        split; [reflexivity|]. split; [constructor; [reflexivity|exact Hs]|].
        split; [reflexivity|]. cbn. lia.
      * destruct (aggregate st) as [rows|e1].
        -- injection H as <- _. eexists (banner :: evs0), _. cbn [fst].
           split; [reflexivity|]. split; [constructor; [reflexivity|exact Hs]|].
           apply report_events_shape.
        -- injection H as <- _. exists (banner :: evs0), []. cbn [fst].
           rewrite app_nil_r.
           split; [reflexivity|]. split; [constructor; [reflexivity|exact Hs]|].
           split; [reflexivity|]. cbn. lia.
    + injection H as <- _. exists (banner :: evs0), []. cbn [fst].
      rewrite app_nil_r.
      split; [reflexivity|]. split; [constructor; [reflexivity|exact Hs]|].
      split; [reflexivity|]. cbn. lia.
  - exists [], []. repeat split; auto.
Qed.



Lemma mbind_assoc {A B C : Type} (m : M A) (f : A -> M B) (g : B -> M C) :
  mbind (mbind m f) g = mbind m (fun a => mbind (f a) g).
Proof.
  destruct m as [l [a|e]]; cbn; [|reflexivity].
  destruct (f a) as [l1 [b|e]]; cbn; [|reflexivity].
  destruct (g b) as [l2 r]. now rewrite app_assoc.
Qed.

Lemma mbind_ext {A B : Type} (m : M A) (f g : A -> M B) :
  (forall a, f a = g a) -> mbind m f = mbind m g.
Proof. intros H. destruct m as [l [a|e]]; cbn; [now rewrite H|reflexivity]. Qed.

Lemma process_runs_app w l1 : forall l2 st i,
  process_runs w st i (l1 ++ l2)
  = mbind (process_runs w st i l1)
      (fun st' => process_runs w st' (i + List.length l1) l2).
Proof.
  induction l1 as [|p l1 IH]; intros l2 st i.
  - cbn [app process_runs mret mbind List.length]. rewrite Nat.add_0_r.
    now destruct (process_runs w st i l2).
  - cbn [app process_runs List.length]. rewrite mbind_assoc.
    apply mbind_ext. intros st'. rewrite IH. now rewrite Nat.add_succ_r.
Qed.

(** X11: a run document that makes the Extractor raise ends [main] with
    that exception at once: the documents before it and itself have been
    opened, those after it never are, and no report is written. *)
Theorem escaping_document_aborts (w : world) (a : args) (before after : list string)
  (p : string) (st : acc) (e : exn) :
  generate_fio_filenames (PyInt (iterations a)) (PyStr (output_filepath a))
  = Ok (before ++ p :: after)%list ->
  snd (process_runs w acc0 0 before) = Ok st ->
  parsed w p = Raise e ->
  exists evs,
    main w a = (evs, Raise e)
    /\ filter is_read evs = map OpenRead (before ++ [p])
    /\ written evs = [].
Proof.
  intros Hf Hb Hp.
  pose proof (process_runs_silent w (before ++ p :: after) acc0 0) as Hs.
  destruct (process_runs_reads w before acc0 0) as (k & Hk & Hall).
  rewrite (Hall st Hb), firstn_all in Hk.
  rewrite (main_outcomes _ _ _ Hf).
  rewrite process_runs_app, mbind_pair in *. rewrite Hb in *.
  cbn [rbind process_runs] in *. rewrite mbind_pair in *.
  rewrite process_run_snd, Hp in *. cbn [rbind] in *. rewrite app_nil_r in *.
  eexists. split; [reflexivity|]. cbn [fst] in Hs. split.
  - cbn [filter is_read banner fst]. rewrite filter_app, Hk, process_run_reads.
    now rewrite map_app.
  - apply silent_written. constructor; [reflexivity|exact Hs].
Qed.

Lemma escaping_document_aborts_witness :
  exists evs,
    main world_run2_scalar args3 = (evs, Raise TypeError)
    /\ filter is_read evs = [OpenRead "fio1.json"; OpenRead "fio2.json"]
    /\ written evs = [].
Proof.
  apply (escaping_document_aborts world_run2_scalar args3
           ["fio1.json"] ["fio3.json"] "fio2.json"
           (match snd (process_runs world_run2_scalar acc0 0 ["fio1.json"]) with
            | Ok st => st
            | Raise _ => acc0
            end)).
  - reflexivity.
  - vm_compute. reflexivity.
  - reflexivity.
Defined.

(** ** The accumulators after the loop *)

(** A result of the Extractor is empty, units included, or has the seven
    metrics in order with the units of a latency unit ["ms"] or
    ["N/A"]. *)
Lemma parsed_shape w p m u :
  parsed w p = Ok (m, u) ->
  (m = [] /\ u = [])
  \/ exists v1 v2 v3 v4 v5 v6 v7 lu,
       m = [("cpu_usr", v1); ("cpu_sys", v2); ("cpu_total", v3); ("bandwidth", v4);
            ("avg_latency", v5); ("stdev_latency", v6); ("iops", v7)]
       /\ u = units_for lu /\ (lu = "ms" \/ lu = "N/A").
Proof.
  unfold parsed. destruct (parse_fio_output w p) as [evs r] eqn:Hp. cbn [snd].
  intros ->. destruct m as [|kv m'].
  - left. split; [reflexivity|].
    unfold parse_fio_output in Hp. destruct (fs_read w p) as [data|e].
    + cbn in Hp. injection Hp as _ Hx. unfold extract in Hx.
      apply rbind_ok in Hx as (has & _ & Hx). apply rbind_ok in Hx as (cond & _ & Hx).
      destruct cond; [|now inversion Hx].
      apply rbind_ok in Hx as (jobs & _ & Hx). apply rbind_ok in Hx as (job & _ & Hx).
      apply extract_job_iff in Hx as (j & _ & Hx).
      destruct (job_metrics_ok _ _ _ Hx)
        as (rd & wd & total & bw_sum & bw & avg & sd & lu & iops
            & _ & _ & _ & _ & _ & _ & _ & Hm & _).
      discriminate.
    + destruct e; cbn in Hp; try discriminate; now inversion Hp.
  - right.
    destruct (parse_nonempty _ _ _ _ _ Hp) as (data & j & _ & _ & Hjm & _);
      [discriminate|].
    destruct (job_metrics_ok _ _ _ Hjm)
      as (rd & wd & total & bw_sum & bw & avg & sd & lu & iops
          & _ & _ & _ & _ & _ & Hl & _ & -> & ->).
    do 7 eexists. exists lu. split; [reflexivity|]. split; [reflexivity|].
    destruct (first_candidate j) as [[l factor]|] eqn:Hc.
    + destruct (latency_metrics_some _ _ _ _ _ _ Hc Hl) as (_ & _ & _ & _ & ->).
      now left.
    + destruct (latency_metrics_none _ _ _ _ Hc Hl) as (_ & _ & ->). now right.
Qed.

(** The results of the loop all have the shape of [parsed_shape]. *)
Lemma runs_shape w files runs :
  mapM (parsed w) files = Ok runs ->
  Forall (fun mu =>
            (fst mu = [] /\ snd mu = [])
            \/ exists v1 v2 v3 v4 v5 v6 v7 lu,
                 fst mu = [("cpu_usr", v1); ("cpu_sys", v2); ("cpu_total", v3);
                           ("bandwidth", v4); ("avg_latency", v5);
                           ("stdev_latency", v6); ("iops", v7)]
                 /\ snd mu = units_for lu /\ (lu = "ms" \/ lu = "N/A")) runs.
Proof.
  intros H. apply (mapM_Forall _ _ _ _ H). intros p [m u] Hp.
  exact (parsed_shape _ _ _ _ Hp).
Qed.

Lemma last_cons_any {A : Type} (y : A) l d d' : last (y :: l) d = last (y :: l) d'.
Proof.
  revert y. induction l as [|z l IH]; intros y; [reflexivity|].
  change (last (y :: z :: l) d) with (last (z :: l) d).
  change (last (y :: z :: l) d') with (last (z :: l) d'). apply IH.
Qed.

Lemma last_cons_default {A : Type} (x : A) l d : last (x :: l) d = last l x.
Proof.
  destruct l as [|y l]; [reflexivity|].
  change (last (x :: y :: l) d) with (last (y :: l) d). apply last_cons_any.
Qed.

Lemma fold_update_last us : forall d,
  Forall (fun u => exists lu, u = units_for lu) us ->
  (d = [] \/ exists lu, d = units_for lu) ->
  fold_left dict_update us d = last us d.
Proof.
  induction us as [|u us IH]; intros d Hus Hd; [reflexivity|].
  inversion Hus as [|? ? (lu & ->) Hus']; subst.
  cbn [fold_left]. rewrite last_cons_default.
  assert (dict_update d (units_for lu) = units_for lu) as ->
    by (destruct Hd as [->|(lu' & ->)]; reflexivity).
  apply IH; [exact Hus'|eauto].
Qed.

Lemma nonempty_units runs :
  Forall (fun mu =>
            (fst mu = [] /\ snd mu = [])
            \/ exists v1 v2 v3 v4 v5 v6 v7 lu,
                 fst mu = [("cpu_usr", v1); ("cpu_sys", v2); ("cpu_total", v3);
                           ("bandwidth", v4); ("avg_latency", v5);
                           ("stdev_latency", v6); ("iops", v7)]
                 /\ snd mu = units_for lu /\ (lu = "ms" \/ lu = "N/A")) runs ->
  Forall (fun u => exists lu, u = units_for lu) (map snd (filter nonempty_run runs)).
Proof.
  induction 1 as [|[m u] runs Hmu _ IH]; [constructor|].
  cbn [fst snd] in Hmu.
  destruct Hmu as [[-> ->]|(v1 & v2 & v3 & v4 & v5 & v6 & v7 & lu & -> & -> & _)];
    cbn [filter nonempty_run fst map snd].
  - exact IH.
  - constructor; [eauto|exact IH].
Qed.

(** X12: after the loop, the units map is exactly the units of the last
    run that gave metrics (empty when none did); it is from this map that
    the summary takes the unit of every row.  With a last run that has no
    latency, the latency rows show ["N/A"] beside the values of the runs
    that measured one. *)
Theorem units_are_those_of_last_run :
  (forall w files evs st,
     process_runs w acc0 0 files = (evs, Ok st) ->
     exists runs,
       mapM (parsed w) files = Ok runs
       /\ global_units_map st = last (map snd (filter nonempty_run runs)) [])
  /\ (exists evs st rows,
        process_runs world_mixed_units acc0 0 files3 = (evs, Ok st)
        /\ aggregate st = Ok rows
        /\ In ["Average Latency"; ""; ""; "N/A"; "5.00"; "5.00"] rows).
Proof.
  split.
  - intros w files evs st H.
    assert (absorb_files w acc0 0 files = Ok st) as Ha
      by now rewrite <- process_runs_snd, H.
    destruct (absorb_files_runs _ _ _ _ _ Ha)
      as (runs & rows & Hruns & _ & _ & _ & _ & _ & Hgum).
    exists runs. split; [exact Hruns|]. rewrite Hgum. cbn [acc0 global_units_map].
    apply fold_update_last; [|now left].
    apply nonempty_units. exact (runs_shape _ _ _ Hruns).
  - eexists. eexists. eexists. split; [vm_compute; reflexivity|].
    split; [vm_compute; reflexivity|]. cbn. tauto.
Qed.

Lemma units_are_those_of_last_run_witness :
  exists runs,
    mapM (parsed world_mixed_units) files3 = Ok runs
    /\ dict_lookup "avg_latency" (last (map snd (filter nonempty_run runs)) [])
       = Some "N/A".
Proof.
  destruct (process_runs world_mixed_units acc0 0 files3) as [evs [st|e]] eqn:H;
    [|vm_compute in H; discriminate].
  destruct (proj1 units_are_those_of_last_run _ _ _ _ H) as (runs & Hruns & Hgum).
  exists runs. split; [exact Hruns|]. rewrite <- Hgum.
  vm_compute in H. injection H as _ <-. reflexivity.
Defined.

Lemma runs_shaped w files runs :
  mapM (parsed w) files = Ok runs -> Forall shaped runs.
Proof. exact (runs_shape w files runs). Qed.

Lemma series_table_step n am mu :
  series_table n am -> shaped mu -> fst mu <> [] ->
  series_table (S n) (series_extend am (fst mu)).
Proof.
  intros Ht [[Hm _]|(v1 & v2 & v3 & v4 & v5 & v6 & v7 & lu & Hm & _)] Hne;
    [contradiction|].
  rewrite Hm. destruct n as [|n]; cbn [series_table] in *.
  - subst am. exists [[v1]; [v2]; [v3]; [v4]; [v5]; [v6]; [v7]].
    repeat split. repeat constructor.
  - destruct Ht as (ls & -> & Hlen & Hall).
    destruct ls as [|l1 [|l2 [|l3 [|l4 [|l5 [|l6 [|l7 [|? ?]]]]]]]]; try discriminate.
    exists [l1 ++ [v1]; l2 ++ [v2]; l3 ++ [v3]; l4 ++ [v4]; l5 ++ [v5];
            l6 ++ [v6]; l7 ++ [v7]]%list.
    split; [reflexivity|]. split; [reflexivity|].
    repeat match goal with
           | H : Forall _ (_ :: _) |- _ => inversion H; subst; clear H
           end.
    repeat constructor; rewrite length_app; cbn; lia.
Qed.

Lemma series_table_fold runs : forall n am,
  Forall shaped runs -> series_table n am ->
  series_table (n + List.length (filter nonempty_run runs))
    (fold_left series_extend (map fst runs) am).
Proof.
  induction runs as [|[m u] runs IH]; intros n am Hs Ht.
  - cbn. now rewrite Nat.add_0_r.
  - inversion Hs as [|? ? Hmu Hs']; subst.
    destruct m as [|kv m']; cbn [map fst fold_left filter nonempty_run].
    + apply IH; assumption.
    + cbn [List.length]. rewrite Nat.add_succ_r.
      apply (IH (S n)); [exact Hs'|].
      apply (series_table_step n am (kv :: m', u)); [exact Ht|exact Hmu|discriminate].
Qed.

Lemma series_table_lengths n am name values :
  series_table n am -> In (name, values) am ->
  In name metric_names /\ List.length values = n.
Proof.
  destruct n as [|n]; cbn [series_table].
  - intros -> [].
  - intros (ls & -> & _ & Hall) Hin. split.
    + apply in_combine_l in Hin. exact Hin.
    + apply in_combine_r in Hin. rewrite Forall_forall in Hall. now apply Hall.
Qed.

(** X13: after the loop every metric has a series with one value for
    each run that gave metrics: the seven series and the per-run table
    have the same length, and the series are registered under the seven
    metric names, in order, as soon as one run gave metrics. *)
Theorem series_have_one_value_per_run (w : world) (files : list string)
  (evs : list event) (st : acc) :
  process_runs w acc0 0 files = (evs, Ok st) ->
  exists runs,
    mapM (parsed w) files = Ok runs
    /\ List.length (individual_run_data st) = List.length (filter nonempty_run runs)
    /\ (filter nonempty_run runs = [] -> all_metrics st = [])
    /\ (filter nonempty_run runs <> [] -> dict_keys (all_metrics st) = metric_names)
    /\ forall name values,
         In (name, values) (all_metrics st) ->
         In name metric_names
         /\ List.length values = List.length (filter nonempty_run runs).
Proof.
  intros H.
  assert (absorb_files w acc0 0 files = Ok st) as Ha
    by now rewrite <- process_runs_snd, H.
  destruct (absorb_files_runs _ _ _ _ _ Ha)
    as (runs & rows & Hruns & Hrows & Hird & Ham & _).
  pose proof (series_table_fold runs 0 [] (runs_shaped _ _ _ Hruns) eq_refl) as Ht.
  cbn [Nat.add acc0 all_metrics individual_run_data app] in *. rewrite <- Ham in Ht.
  exists runs. split; [exact Hruns|]. split; [|split; [|split]].
  - rewrite Hird. exact (rows_of_length _ _ _ Hrows).
  - intros E. rewrite E in Ht. exact Ht.
  - intros Hne. destruct (filter nonempty_run runs) as [|r rs]; [congruence|].
    cbn [List.length series_table] in Ht. destruct Ht as (ls & -> & Hlen & _).
    destruct ls as [|l1 [|l2 [|l3 [|l4 [|l5 [|l6 [|l7 [|? ?]]]]]]]]; try discriminate.
    reflexivity.
  - intros name values. now apply series_table_lengths.
Qed.

Lemma series_have_one_value_per_run_witness :
  exists runs,
    mapM (parsed world_run2_missing) files3 = Ok runs
    /\ List.length (filter nonempty_run runs) = 2%nat
    /\ Forall (fun kv => List.length (snd kv) = 2%nat)
         (all_metrics
            (match snd (process_runs world_run2_missing acc0 0 files3) with
             | Ok st => st
             | Raise _ => acc0
             end)).
Proof.
  destruct (process_runs world_run2_missing acc0 0 files3) as [evs [st|e]] eqn:H;
    [|vm_compute in H; discriminate].
  destruct (series_have_one_value_per_run _ _ _ _ H)
    as (runs & Hruns & _ & _ & _ & Hall).
  exists runs. split; [exact Hruns|].
  assert (List.length (filter nonempty_run runs) = 2%nat) as Hn
    by (vm_compute in Hruns; injection Hruns as <-; reflexivity).
  split; [exact Hn|]. cbn [snd]. apply Forall_forall. intros [name values] Hin.
  rewrite <- Hn. exact (proj2 (Hall name values Hin)).
Defined.

Lemma shaped_valid_latencies mu :
  shaped mu ->
  valid_latencies "avg_latency" [mu]
  = (if measured_latency mu then [dict_get "avg_latency" PyNone (fst mu)] else [])
  /\ valid_latencies "stdev_latency" [mu]
     = (if measured_latency mu then [dict_get "stdev_latency" PyNone (fst mu)] else []).
Proof.
  destruct mu as [m u]. unfold shaped. cbn [fst snd].
  intros [[-> ->]|(v1 & v2 & v3 & v4 & v5 & v6 & v7 & lu & -> & -> & [->| ->])];
    split; reflexivity.
Qed.

Lemma valid_latencies_cons name mu runs :
  valid_latencies name (mu :: runs)
  = (valid_latencies name [mu] ++ valid_latencies name runs)%list.
Proof. unfold valid_latencies. cbn [flat_map]. now rewrite app_nil_r. Qed.

Lemma valid_latencies_measured runs :
  Forall shaped runs ->
  List.length (valid_latencies "avg_latency" runs)
  = List.length (filter measured_latency runs)
  /\ List.length (valid_latencies "stdev_latency" runs)
     = List.length (filter measured_latency runs).
Proof.
  induction 1 as [|mu runs Hmu _ [IHa IHs]]; [split; reflexivity|].
  destruct (shaped_valid_latencies mu Hmu) as [Ha Hs].
  rewrite !(valid_latencies_cons _ mu runs), Ha, Hs, !length_app, IHa, IHs.
  cbn [filter]. destruct (measured_latency mu); split; reflexivity.
Qed.

(** X14: the two lists behind the latency rows always have the same
    length, the number of runs whose latency unit is ["ms"]; so the
    "Average Latency" and "Standard Deviation Latency" rows are both
    there or both missing. *)
Theorem latency_rows_come_together (w : world) (files : list string)
  (evs : list event) (st : acc) :
  process_runs w acc0 0 files = (evs, Ok st) ->
  exists runs,
    mapM (parsed w) files = Ok runs
    /\ List.length (avg_latency_values st) = List.length (filter measured_latency runs)
    /\ List.length (stdev_latency_values st) = List.length (filter measured_latency runs)
    /\ (avg_latency_values st = [] <-> stdev_latency_values st = []).
Proof.
  intros H.
  destruct (process_runs_series _ _ _ _ H)
    as (runs & rows & Hruns & _ & _ & Havg & Hsd & _).
  destruct (valid_latencies_measured runs (runs_shaped _ _ _ Hruns)) as [Ha Hs].
  rewrite <- Havg in Ha. rewrite <- Hsd in Hs.
  exists runs. repeat split; try assumption.
  - intros E. rewrite E in Ha. cbn in Ha. rewrite <- Ha in Hs.
    now apply length_zero_iff_nil.
  - intros E. rewrite E in Hs. cbn in Hs. rewrite <- Hs in Ha.
    now apply length_zero_iff_nil.
Qed.

Lemma latency_rows_come_together_witness :
  exists runs,
    mapM (parsed world_mixed_units) files3 = Ok runs
    /\ List.length (filter measured_latency runs) = 1%nat
    /\ List.length (filter nonempty_run runs) = 2%nat.
Proof.
  destruct (process_runs world_mixed_units acc0 0 files3) as [evs [st|e]] eqn:H;
    [|vm_compute in H; discriminate].
  destruct (latency_rows_come_together _ _ _ _ H) as (runs & Hruns & _).
  exists runs. split; [exact Hruns|].
  vm_compute in Hruns. injection Hruns as <-. split; reflexivity.
Defined.

(** ** The shape of the report *)

Lemma summary_row_cells gum name values row :
  summary_row gum name values = Ok row ->
  List.length row = 6%nat /\ nth_error row 0 = Some (display_name name).
Proof.
  unfold summary_row. destruct values as [|v vs].
  - intros H. injection H as <-. split; reflexivity.
  - intros H.
    repeat match type of H with
           | rbind _ _ = Ok _ => apply rbind_ok in H as (? & _ & H)
           end.
    injection H as <-. split; reflexivity.
Qed.

Lemma latency_row_cells label key gum values rows :
  latency_row label key gum values = Ok rows ->
  Forall (fun row => List.length row = 6%nat) rows
  /\ List.length rows = (match values with [] => 0 | _ :: _ => 1 end)%nat.
Proof.
  unfold latency_row. destruct values as [|v vs].
  - intros H. injection H as <-. split; [constructor|reflexivity].
  - intros H.
    repeat match type of H with
           | rbind _ _ = Ok _ => apply rbind_ok in H as (? & _ & H)
           end.
    injection H as <-. split; [repeat constructor|reflexivity].
Qed.

(** X15: whenever the summary is computed it is a table of six columns:
    the header, then one row for each registered metric, in the order of
    registration and titled with its display name, then one row for each
    latency list that is not empty. *)
Theorem summary_is_six_columns (st : acc) (rows : list (list string)) :
  aggregate st = Ok rows ->
  Forall (fun row => List.length row = 6%nat) rows
  /\ nth_error rows 0 = Some summary_header
  /\ (forall i name values,
        nth_error (all_metrics st) i = Some (name, values) ->
        exists cells, nth_error rows (S i) = Some (display_name name :: cells))
  /\ List.length rows
     = (1 + List.length (all_metrics st)
        + (match avg_latency_values st with [] => 0 | _ :: _ => 1 end)
        + (match stdev_latency_values st with [] => 0 | _ :: _ => 1 end))%nat.
Proof.
  unfold aggregate. intros H.
  apply rbind_ok in H as (srows & Hs & H).
  apply rbind_ok in H as (arows & Ha & H).
  apply rbind_ok in H as (drows & Hd & H). injection H as <-.
  destruct (latency_row_cells _ _ _ _ _ Ha) as [Ha6 Han].
  destruct (latency_row_cells _ _ _ _ _ Hd) as [Hd6 Hdn].
  assert (Forall (fun row => List.length row = 6%nat) srows) as Hs6.
  { apply (mapM_Forall _ _ _ _ Hs). intros [name values] row Hrow.
    exact (proj1 (summary_row_cells _ _ _ _ Hrow)). }
  repeat split.
  - constructor; [reflexivity|]. rewrite !Forall_app. auto.
  - intros i name values Hi. cbn [nth_error].
    rewrite nth_error_app1
      by (rewrite (mapM_length _ _ _ Hs); apply nth_error_Some; congruence).
    clear Ha Hd Han Hdn Ha6 Hd6 Hs6. revert srows Hs i Hi.
    induction (all_metrics st) as [|kv am IH]; intros srows Hs i Hi;
      [destruct i; discriminate|].
    cbn [mapM] in Hs. apply rbind_ok in Hs as (row & Hrow & Hs).
    apply rbind_ok in Hs as (rest & Hrest & Hs). injection Hs as <-.
    destruct i as [|i]; cbn [nth_error] in *.
    + injection Hi as ->. cbn [fst snd] in Hrow.
      destruct (summary_row_cells _ _ _ _ Hrow) as [_ H0].
      destruct row as [|c cells]; [discriminate|]. injection H0 as ->. eauto.
    + now apply IH.
  - cbn [List.length]. rewrite !length_app, (mapM_length _ _ _ Hs), Han, Hdn. lia.
Qed.

Lemma summary_is_six_columns_witness :
  exists st rows,
    snd (process_runs world_mixed_units acc0 0 files3) = Ok st
    /\ aggregate st = Ok rows
    /\ Forall (fun row => List.length row = 6%nat) rows
    /\ List.length rows = 10%nat.
Proof.
  destruct (process_runs world_mixed_units acc0 0 files3) as [evs [st|e]] eqn:H;
    [|vm_compute in H; discriminate].
  destruct (aggregate st) as [rows|e] eqn:Ha;
    [|vm_compute in H; injection H as _ <-; vm_compute in Ha; discriminate].
  destruct (summary_is_six_columns st rows Ha) as (H6 & _ & _ & Hn).
  exists st, rows. split; [reflexivity|]. split; [exact Ha|]. split; [exact H6|].
  rewrite Hn. vm_compute in H. injection H as _ <-. reflexivity.
Defined.


Lemma rows_exist_with_metrics w files evs st :
  process_runs w acc0 0 files = (evs, Ok st) ->
  all_metrics st <> [] -> individual_run_data st <> [].
Proof.
  intros H Hne.
  assert (absorb_files w acc0 0 files = Ok st) as Ha
    by now rewrite <- process_runs_snd, H.
  destruct (absorb_files_runs _ _ _ _ _ Ha)
    as (runs & rows & Hruns & Hrows & Hird & Ham & _).
  pose proof (series_table_fold runs 0 [] (runs_shaped _ _ _ Hruns) eq_refl) as Ht.
  cbn [Nat.add acc0 all_metrics individual_run_data app] in *. rewrite <- Ham in Ht.
  pose proof (rows_of_length _ _ _ Hrows) as Hlen. rewrite <- Hird in Hlen.
  destruct (individual_run_data st) as [|row ird]; [|discriminate].
  cbn in Hlen. rewrite <- Hlen in Ht. intros _. apply Hne. exact Ht.
Qed.




Lemma mapM_Forall_in {A B : Type} (f : A -> result B) (P : B -> Prop) l : forall l',
  mapM f l = Ok l' -> (forall x y, In x l -> f x = Ok y -> P y) -> Forall P l'.
Proof.
  induction l as [|x l IH]; intros l' H HP; cbn [mapM] in H.
  - injection H as <-. constructor.
  - apply rbind_ok in H as (y & Hy & H). apply rbind_ok in H as (ys & Hys & H).
    injection H as <-. constructor.
    + apply (HP x); [now left|exact Hy].
    + apply IH; [exact Hys|]. intros x' y' Hin. apply HP. now right.
Qed.

Lemma header_for_stable lu :
  lu = "ms" \/ lu = "N/A" ->
  add_fieldnames ["Run"] (header_for lu) = header_for lu
  /\ add_fieldnames (header_for lu) (header_for lu) = header_for lu.
Proof. intros [->| ->]; split; reflexivity. Qed.

Lemma shaped_row_keys mu lu i row :
  shaped mu -> fst mu <> [] ->
  dict_lookup "avg_latency" (snd mu) = Some lu ->
  cells_of (snd mu) (fst mu) [run_cell i] = Ok row ->
  dict_keys row = header_for lu /\ (lu = "ms" \/ lu = "N/A").
Proof.
  intros [[Hm _]|(v1 & v2 & v3 & v4 & v5 & v6 & v7 & lu' & Hm & Hu & Hlu)] Hne Hl Hrow;
    [contradiction|].
  rewrite Hu in Hl. cbn in Hl. injection Hl as ->.
  split; [|exact Hlu].
  rewrite (cells_of_keys _ _ _ _ Hrow), Hm, Hu.
  destruct Hlu as [->| ->]; reflexivity.
Qed.

Lemma rows_share_header lu runs : forall i rows,
  Forall shaped runs ->
  Forall (fun mu => fst mu <> [] ->
                    dict_lookup "avg_latency" (snd mu) = Some lu) runs ->
  rows_of i runs = Ok rows ->
  Forall (fun row => dict_keys row = header_for lu) rows
  /\ (rows <> [] -> lu = "ms" \/ lu = "N/A").
Proof.
  induction runs as [|[m u] runs IH]; intros i rows Hs Hu H.
  - injection H as <-. split; [constructor|congruence].
  - inversion Hs as [|? ? Hmu Hs']; subst. inversion Hu as [|? ? Hlu Hu']; subst.
    cbn [rows_of] in H. destruct m as [|kv m'].
    + exact (IH _ _ Hs' Hu' H).
    + apply rbind_ok in H as (row & Hrow & H).
      apply rbind_ok in H as (rest & Hrest & H). injection H as <-.
      destruct (shaped_row_keys (kv :: m', u) lu i row Hmu) as [Hk Hcase];
        [discriminate | apply Hlu; discriminate | exact Hrow |].
      destruct (IH _ _ Hs' Hu' Hrest) as [Hall _].
      split; [constructor; assumption|intros _; exact Hcase].
Qed.

Lemma fieldnames_shared K rows : forall fieldnames,
  Forall (fun row => dict_keys row = K) rows ->
  add_fieldnames fieldnames K = K -> add_fieldnames K K = K ->
  rows <> [] ->
  fold_left (fun fn row => add_fieldnames fn (@dict_keys string row)) rows fieldnames
  = K.
Proof.
  induction rows as [|row rows IH]; intros fn Hall Hfn HK Hne; [congruence|].
  inversion Hall as [|? ? Hrow Hall']; subst. cbn [fold_left]. rewrite Hfn.
  destruct rows as [|row' rows']; [reflexivity|].
  apply IH; [exact Hall'|exact HK|exact HK|discriminate].
Qed.

(** X17: when all the runs that gave metrics have the same latency unit
    [lu], the per-run table has eight columns, ["Run"] and one for each of
    the seven metrics with its unit: no metric is split over two
    columns. *)
Theorem header_when_units_agree (w : world) (files : list string) (evs : list event)
  (st : acc) (lu : string) :
  process_runs w acc0 0 files = (evs, Ok st) ->
  all_metrics st <> [] ->
  (forall p m u,
     In p files -> parsed w p = Ok (m, u) -> m <> [] ->
     dict_lookup "avg_latency" u = Some lu) ->
  fieldnames_of (individual_run_data st) = header_for lu
  /\ List.length (fieldnames_of (individual_run_data st)) = 8%nat.
Proof.
  intros H Hne Hlu.
  pose proof (rows_exist_with_metrics _ _ _ _ H Hne) as Hrows_ne.
  destruct (process_runs_series _ _ _ _ H)
    as (runs & rows & Hruns & Hrows & Hird & _).
  rewrite Hird in *.
  assert (Forall (fun mu => fst mu <> [] ->
                            dict_lookup "avg_latency" (snd mu) = Some lu) runs) as Hu.
  { apply (mapM_Forall_in _ _ _ _ Hruns). intros p [m u] Hin Hp Hm.
    exact (Hlu p m u Hin Hp Hm). }
  destruct (rows_share_header lu runs 0 rows (runs_shaped _ _ _ Hruns) Hu Hrows)
    as [Hall Hcase].
  destruct (header_for_stable lu (Hcase Hrows_ne)) as [H1 H2].
  assert (fieldnames_of rows = header_for lu) as E
    by (apply fieldnames_shared; assumption).
  split; [exact E|]. rewrite E. reflexivity.
Qed.

Lemma header_when_units_agree_witness :
  fieldnames_of
    (individual_run_data
       (match snd (process_runs world_run2_missing acc0 0 files3) with
        | Ok st => st
        | Raise _ => acc0
        end))
  = ["Run"; "cpu_usr (%)"; "cpu_sys (%)"; "cpu_total (%)"; "bandwidth (MiB/s)";
     "avg_latency (ms)"; "stdev_latency (ms)"; "iops (ops/s)"].
Proof.
  destruct (process_runs world_run2_missing acc0 0 files3) as [evs [st|e]] eqn:H;
    [|vm_compute in H; discriminate].
  cbn [snd].
  refine (proj1 (header_when_units_agree world_run2_missing files3 evs st "ms" H _ _)).
  - vm_compute in H. injection H as _ <-. discriminate.
  - intros p m u Hin Hp Hm. cbn in Hin.
    destruct Hin as [<-|[<-|[<-|[]]]]; vm_compute in Hp; injection Hp as <- <-;
      (reflexivity || now elim Hm).
Defined.

(** ** Run numbers *)

Lemma absorb_files_run_numbers w files : forall st i st',
  absorb_files w st i files = Ok st' ->
  run_column (individual_run_data st')
  = (run_column (individual_run_data st)
       ++ map str_of_int (kept_positions w i files))%list.
Proof.
  induction files as [|p rest IH]; intros st i st' H.
  - injection H as <-. cbn. now rewrite app_nil_r.
  - cbn [absorb_files] in H.
    apply rbind_ok in H as ([m u] & Hp & H). apply rbind_ok in H as (st1 & H1 & H).
    rewrite (IH _ _ _ H). cbn [kept_positions]. unfold gives_metrics. rewrite Hp.
    unfold absorb in H1. destruct m as [|kv m'].
    + injection H1 as <-. reflexivity.
    + apply rbind_ok in H1 as (rd & Hrd & H1). injection H1 as <-.
      cbn [individual_run_data nonempty_run fst map]. unfold run_column.
      rewrite map_app, <- app_assoc. cbn [map app]. unfold dict_get at 2.
      rewrite (cells_of_run _ _ _ _ _ Hrd eq_refl). reflexivity.
Qed.

Lemma kept_positions_lower w files : forall i,
  Forall (fun n => Z.of_nat i + 1 <= n) (kept_positions w i files).
Proof.
  induction files as [|p rest IH]; intros i; [constructor|].
  cbn [kept_positions].
  assert (Forall (fun n => Z.of_nat i + 1 <= n) (kept_positions w (S i) rest)) as Hr.
  { eapply Forall_impl; [|apply (IH (S i))]. cbn beta. intros n Hn. lia. }
  destruct (gives_metrics w p); [constructor; [lia|exact Hr]|exact Hr].
Qed.

Lemma kept_positions_sorted w files : forall i,
  StronglySorted Z.lt (kept_positions w i files).
Proof.
  induction files as [|p rest IH]; intros i; [constructor|].
  cbn [kept_positions]. destruct (gives_metrics w p); [|apply IH].
  constructor; [apply IH|].
  eapply Forall_impl; [|apply (kept_positions_lower w rest (S i))].
  cbn beta. intros n Hn. lia.
Qed.

Lemma kept_positions_In w files : forall i k,
  In (Z.of_nat k + 1) (kept_positions w i files)
  <-> (i <= k)%nat
      /\ exists p, nth_error files (k - i) = Some p /\ gives_metrics w p = true.
Proof.
  induction files as [|p rest IH]; intros i k.
  - cbn. split; [tauto|]. intros (_ & q & Hq & _). now destruct (k - i)%nat.
  - assert (In (Z.of_nat k + 1) (kept_positions w (S i) rest)
            <-> (i <= k)%nat /\ k <> i
                /\ exists q, nth_error (p :: rest) (k - i) = Some q
                             /\ gives_metrics w q = true) as Hrest.
    { rewrite IH. split.
      - intros (Hle & q & Hq & Hg). split; [lia|]. split; [lia|]. exists q.
        replace (k - i)%nat with (S (k - S i)) by lia. now split.
      - intros (Hle & Hne & q & Hq & Hg). split; [lia|]. exists q.
        replace (k - i)%nat with (S (k - S i)) in Hq by lia. now split. }
    cbn [kept_positions]. destruct (gives_metrics w p) eqn:Hp.
    + cbn [In]. rewrite Hrest. split.
      * intros [E|(Hle & _ & Hq)]; [|now split].
        assert (k = i) as -> by lia. split; [lia|]. exists p.
        rewrite Nat.sub_diag. now split.
      * intros (Hle & Hq). destruct (Nat.eq_dec k i) as [->|Hne]; [now left|].
        right. now repeat split.
    + rewrite Hrest. split; [intros (Hle & _ & Hq); now split|].
      intros (Hle & q & Hq & Hg). split; [exact Hle|]. split; [|now exists q].
      intros ->. rewrite Nat.sub_diag in Hq. cbn in Hq. injection Hq as <-.
      congruence.
Qed.

(** X18: the ["Run"] cell of a row of the per-run table is the number of
    its document among the expected ones, counted from 1, not among the
    documents that gave metrics: the numbers increase down the table, and
    a skipped document leaves a gap. *)
Theorem run_numbers_are_positions (w : world) (files : list string)
  (evs : list event) (st : acc) :
  process_runs w acc0 0 files = (evs, Ok st) ->
  run_column (individual_run_data st) = map str_of_int (kept_positions w 0 files)
  /\ StronglySorted Z.lt (kept_positions w 0 files)
  /\ forall k,
       In (Z.of_nat k + 1) (kept_positions w 0 files)
       <-> exists p, nth_error files k = Some p /\ gives_metrics w p = true.
Proof.
  intros H.
  assert (absorb_files w acc0 0 files = Ok st) as Ha
    by now rewrite <- process_runs_snd, H.
  split; [exact (absorb_files_run_numbers _ _ _ _ _ Ha)|].
  split; [apply kept_positions_sorted|].
  intros k. rewrite kept_positions_In, Nat.sub_0_r. split.
  - now intros [_ Hp].
  - intros Hp. split; [lia|exact Hp].
Qed.

Lemma run_numbers_are_positions_witness :
  run_column
    (individual_run_data
       (match snd (process_runs world_run2_missing acc0 0 files3) with
        | Ok st => st
        | Raise _ => acc0
        end))
  = ["1"; "3"].
Proof.
  destruct (process_runs world_run2_missing acc0 0 files3) as [evs [st|e]] eqn:H;
    [|vm_compute in H; discriminate].
  cbn [snd]. rewrite (proj1 (run_numbers_are_positions _ _ _ _ H)). reflexivity.
Defined.

(** ** Skipped documents *)

Lemma cells_of_any_start u m : forall rd rd' row,
  cells_of u m rd = Ok row -> exists row', cells_of u m rd' = Ok row'.
Proof.
  induction m as [|[k v] m IH]; intros rd rd' row H; cbn [cells_of] in *.
  - eauto.
  - apply rbind_ok in H as (txt & Htxt & H). rewrite Htxt. cbn [rbind].
    exact (IH _ _ _ H).
Qed.

Lemma absorb_files_filter w files : forall st st2 i i2 st',
  all_metrics st2 = all_metrics st ->
  global_units_map st2 = global_units_map st ->
  avg_latency_values st2 = avg_latency_values st ->
  stdev_latency_values st2 = stdev_latency_values st ->
  absorb_files w st i files = Ok st' ->
  exists st2',
    absorb_files w st2 i2 (filter (gives_metrics w) files) = Ok st2'
    /\ all_metrics st2' = all_metrics st'
    /\ global_units_map st2' = global_units_map st'
    /\ avg_latency_values st2' = avg_latency_values st'
    /\ stdev_latency_values st2' = stdev_latency_values st'.
Proof.
  induction files as [|p rest IH]; intros st st2 i i2 st' Ham Hgum Havg Hsd H.
  - injection H as <-. exists st2. now repeat split.
  - cbn [absorb_files] in H.
    apply rbind_ok in H as ([m u] & Hp & H). apply rbind_ok in H as (st1 & H1 & H).
    cbn [filter]. unfold gives_metrics at 1. rewrite Hp.
    unfold absorb in H1. destruct m as [|kv m']; cbn [nonempty_run fst].
    + injection H1 as <-. now apply (IH st st2 (S i) i2).
    + apply rbind_ok in H1 as (rd & Hrd & H1). injection H1 as <-.
      destruct (cells_of_any_start _ _ _ [run_cell i2] _ Hrd) as (rd2 & Hrd2).
      cbn [absorb_files]. rewrite Hp. cbn [rbind absorb]. rewrite Hrd2. cbn [rbind].
      eapply (IH _ _ (S i) (S i2)); [| | | |exact H];
        cbn [all_metrics global_units_map avg_latency_values stdev_latency_values];
        rewrite ?Ham, ?Hgum, ?Havg, ?Hsd; reflexivity.
Qed.

Lemma aggregate_same st st2 :
  all_metrics st2 = all_metrics st ->
  global_units_map st2 = global_units_map st ->
  avg_latency_values st2 = avg_latency_values st ->
  stdev_latency_values st2 = stdev_latency_values st ->
  aggregate st2 = aggregate st.
Proof. unfold aggregate. now intros -> -> -> ->. Qed.

(** X19: a document that is skipped leaves nothing in the summary: the
    loop over the expected documents and the loop over those of them that
    give metrics end with the same series, units and latency lists, hence
    with the same summary table. *)
Theorem skipped_documents_leave_no_trace (w : world) (files : list string)
  (evs : list event) (st : acc) :
  process_runs w acc0 0 files = (evs, Ok st) ->
  exists evs' st',
    process_runs w acc0 0 (filter (gives_metrics w) files) = (evs', Ok st')
    /\ all_metrics st' = all_metrics st
    /\ global_units_map st' = global_units_map st
    /\ avg_latency_values st' = avg_latency_values st
    /\ stdev_latency_values st' = stdev_latency_values st
    /\ aggregate st' = aggregate st.
Proof.
  intros H.
  assert (absorb_files w acc0 0 files = Ok st) as Ha
    by now rewrite <- process_runs_snd, H.
  destruct (absorb_files_filter w files acc0 acc0 0 0 st
              eq_refl eq_refl eq_refl eq_refl Ha)
    as (st' & Ha' & Ham & Hgum & Havg & Hsd).
  exists (fst (process_runs w acc0 0 (filter (gives_metrics w) files))), st'.
  split.
  - rewrite <- process_runs_snd in Ha'.
    destruct (process_runs w acc0 0 (filter (gives_metrics w) files)) as [l r].
    cbn [fst snd] in *. now subst r.
  - repeat split; try assumption. now apply aggregate_same.
Qed.

Lemma skipped_documents_leave_no_trace_witness :
  exists evs' st',
    process_runs world_run2_missing acc0 0 ["fio1.json"; "fio3.json"] = (evs', Ok st')
    /\ aggregate st'
       = aggregate
           (match snd (process_runs world_run2_missing acc0 0 files3) with
            | Ok st => st
            | Raise _ => acc0
            end).
Proof.
  destruct (process_runs world_run2_missing acc0 0 files3) as [evs [st|e]] eqn:H;
    [|vm_compute in H; discriminate].
  destruct (skipped_documents_leave_no_trace _ _ _ _ H)
    as (evs' & st' & H' & _ & _ & _ & _ & Hagg).
  exists evs', st'. split; [exact H'|exact Hagg].
Defined.

(** ** Exceptions that leave [main] *)

Lemma unhandled_Ok {A : Type} (a : A) : unhandled (Ok a).
Proof. intros e H. discriminate. Qed.

Lemma unhandled_Raise {A : Type} (e : exn) :
  handled e = false -> unhandled (@Raise A e).
Proof. intros He e' H. now injection H as <-. Qed.

Lemma unhandled_rbind {A B : Type} (r : result A) (k : A -> result B) :
  unhandled r -> (forall a, unhandled (k a)) -> unhandled (rbind r k).
Proof.
  intros Hr Hk. destruct r as [a|e]; cbn [rbind]; [apply Hk|].
  intros e' H. injection H as <-. now apply Hr.
Qed.

Create HintDb unhandled discriminated.
#[local] Hint Resolve unhandled_Ok : unhandled.

Ltac unhandled_step :=
  first
    [ apply unhandled_Ok
    | apply unhandled_Raise; reflexivity
    | solve [auto with unhandled]
    | apply unhandled_rbind; [|intros ?]
    | match goal with
      | |- unhandled (if ?c then _ else _) => destruct c
      | |- unhandled (let '(_, _) := ?p in _) => destruct p
      end ].

Ltac unhandled_tac := repeat unhandled_step.

Lemma float_of_int_unhandled z : unhandled (float_of_int z).
Proof. unfold float_of_int. unhandled_tac. Qed.
#[local] Hint Resolve float_of_int_unhandled : unhandled.

Lemma number_to_float_unhandled n : unhandled (number_to_float n).
Proof. destruct n; cbn; unhandled_tac. Qed.
#[local] Hint Resolve number_to_float_unhandled : unhandled.

Lemma num_binop_unhandled fz ff a b : unhandled (num_binop fz ff a b).
Proof. destruct a, b; cbn [num_binop]; unhandled_tac. Qed.
#[local] Hint Resolve num_binop_unhandled : unhandled.

Lemma py_add_unhandled a b : unhandled (py_add a b).
Proof.
  unfold py_add. destruct (as_number a), (as_number b); [unhandled_tac|..];
    destruct a, b; unhandled_tac.
Qed.
#[local] Hint Resolve py_add_unhandled : unhandled.

Lemma py_sub_unhandled a b : unhandled (py_sub a b).
Proof. unfold py_sub. destruct (as_number a), (as_number b); unhandled_tac. Qed.
#[local] Hint Resolve py_sub_unhandled : unhandled.

Lemma int_truediv_unhandled a b : unhandled (int_truediv a b).
Proof. unfold int_truediv. unhandled_tac. Qed.
#[local] Hint Resolve int_truediv_unhandled : unhandled.

Lemma py_truediv_unhandled a b : unhandled (py_truediv a b).
Proof.
  unfold py_truediv.
  destruct (as_number a) as [[x|f]|], (as_number b) as [[y|g]|]; unhandled_tac.
Qed.
#[local] Hint Resolve py_truediv_unhandled : unhandled.

Lemma py_pow2_unhandled a : unhandled (py_pow2 a).
Proof. unfold py_pow2. destruct (as_number a) as [[x|f]|]; unhandled_tac. Qed.
#[local] Hint Resolve py_pow2_unhandled : unhandled.

Lemma math_sqrt_unhandled a : unhandled (math_sqrt a).
Proof. unfold math_sqrt. destruct (as_number a); unhandled_tac. Qed.
#[local] Hint Resolve math_sqrt_unhandled : unhandled.

Lemma py_lt_unhandled a b : unhandled (py_lt a b).
Proof.
  unfold py_lt. destruct (as_number a), (as_number b); [unhandled_tac|..];
    destruct a, b; unhandled_tac.
Qed.
#[local] Hint Resolve py_lt_unhandled : unhandled.

Lemma sum_from_unhandled l : forall acc, unhandled (sum_from acc l).
Proof. induction l as [|x l IH]; intros acc; cbn [sum_from]; unhandled_tac. Qed.

Lemma min_from_unhandled l : forall m, unhandled (min_from m l).
Proof. induction l as [|x l IH]; intros m; cbn [min_from]; unhandled_tac. Qed.

Lemma max_from_unhandled l : forall m, unhandled (max_from m l).
Proof.
  induction l as [|x l IH]; intros m; cbn [max_from]; unfold py_gt; unhandled_tac.
Qed.

Lemma py_sum_unhandled l : unhandled (py_sum l).
Proof. apply sum_from_unhandled. Qed.

Lemma py_min_unhandled l : unhandled (py_min l).
Proof. destruct l; cbn [py_min]; [unhandled_tac|apply min_from_unhandled]. Qed.

Lemma py_max_unhandled l : unhandled (py_max l).
Proof. destruct l; cbn [py_max]; [unhandled_tac|apply max_from_unhandled]. Qed.
#[local] Hint Resolve py_sum_unhandled py_min_unhandled py_max_unhandled : unhandled.

Lemma mapM_unhandled {A B : Type} (f : A -> result B) (l : list A) :
  (forall x, unhandled (f x)) -> unhandled (mapM f l).
Proof.
  intros Hf. induction l as [|x l IH]; cbn [mapM]; unhandled_tac.
Qed.

Lemma py_format_2f_unhandled v : unhandled (py_format_2f v).
Proof.
  unfold py_format_2f. destruct (as_number v); [unhandled_tac|].
  destruct v; unhandled_tac.
Qed.
#[local] Hint Resolve py_format_2f_unhandled : unhandled.

Lemma py_contains_unhandled k v : unhandled (py_contains k v).
Proof. destruct v; cbn; unhandled_tac. Qed.

Lemma py_getitem_unhandled k v : unhandled (py_getitem k v).
Proof.
  destruct v; cbn; unhandled_tac. destruct (dict_lookup k d); unhandled_tac.
Qed.

Lemma py_len_positive_unhandled v : unhandled (py_len_positive v).
Proof. destruct v; cbn; unhandled_tac. Qed.

Lemma py_getitem0_unhandled v : unhandled (py_getitem0 v).
Proof. destruct v as [| | | |s|l|d]; cbn; unhandled_tac; [destruct s|destruct l]; unhandled_tac. Qed.

Lemma py_get_unhandled k dflt v : unhandled (py_get k dflt v).
Proof. destruct v; cbn; unhandled_tac. Qed.
#[local] Hint Resolve py_contains_unhandled py_getitem_unhandled
  py_len_positive_unhandled py_getitem0_unhandled py_get_unhandled : unhandled.

Lemma sub_get_unhandled j side field dflt : unhandled (sub_get j side field dflt).
Proof. unfold sub_get. unhandled_tac. Qed.

Lemma sub_item_unhandled j side field : unhandled (sub_item j side field).
Proof. unfold sub_item. unhandled_tac. Qed.
#[local] Hint Resolve sub_get_unhandled sub_item_unhandled : unhandled.

Lemma latency_test_unhandled j side field : unhandled (latency_test j side field).
Proof. unfold latency_test. unhandled_tac. Qed.
#[local] Hint Resolve latency_test_unhandled : unhandled.

Lemma select_latency_unhandled j : unhandled (select_latency j).
Proof. unfold select_latency. unhandled_tac. Qed.
#[local] Hint Resolve select_latency_unhandled : unhandled.

Lemma extract_job_unhandled j m u : unhandled (extract_job j m u).
Proof. unfold extract_job. unhandled_tac. Qed.
#[local] Hint Resolve extract_job_unhandled : unhandled.

Lemma extract_unhandled data : unhandled (extract data).
Proof. unfold extract. unhandled_tac. Qed.

(** What [parse_fio_output] raises is never one of the two exceptions
    it handles: a handled exception of the load is turned into an empty
    result, and nothing after the load raises one. *)
Lemma parsed_unhandled w p : unhandled (parsed w p).
Proof.
  unfold parsed, parse_fio_output. rewrite snd_mbind. cbn [emit snd rbind].
  destruct (fs_read w p) as [data|[]]; cbn [lift snd];
    solve [apply extract_unhandled | unhandled_tac].
Qed.

Lemma cells_of_unhandled u m : forall rd, unhandled (cells_of u m rd).
Proof.
  induction m as [|[k v] m IH]; intros rd; cbn [cells_of]; unhandled_tac.
Qed.

Lemma absorb_unhandled st i mu : unhandled (absorb st i mu).
Proof.
  destruct mu as [m u]. unfold absorb. destruct m; unhandled_tac.
  apply cells_of_unhandled.
Qed.

Lemma absorb_files_unhandled w files : forall st i,
  unhandled (absorb_files w st i files).
Proof.
  induction files as [|p rest IH]; intros st i; cbn [absorb_files];
    [unhandled_tac|].
  apply unhandled_rbind; [apply parsed_unhandled|]. intros mu.
  apply unhandled_rbind; [apply absorb_unhandled|]. intros st'. apply IH.
Qed.

Lemma sample_stdev_unhandled values avg : unhandled (sample_stdev values avg).
Proof.
  unfold sample_stdev. unhandled_tac. apply mapM_unhandled. intros x.
  unhandled_tac.
Qed.
#[local] Hint Resolve sample_stdev_unhandled : unhandled.

Lemma summary_row_unhandled gum name values :
  unhandled (summary_row gum name values).
Proof. unfold summary_row. destruct values; unhandled_tac. Qed.

Lemma latency_row_unhandled label key gum values :
  unhandled (latency_row label key gum values).
Proof. unfold latency_row. destruct values; unhandled_tac. Qed.
#[local] Hint Resolve summary_row_unhandled latency_row_unhandled : unhandled.

Lemma aggregate_unhandled st : unhandled (aggregate st).
Proof.
  unfold aggregate. unhandled_tac. apply mapM_unhandled. intros kv.
  apply summary_row_unhandled.
Qed.

Lemma generate_fio_filenames_unhandled n prefix :
  unhandled (generate_fio_filenames n prefix).
Proof.
  unfold generate_fio_filenames.
  destruct n as [| b | z | | | |]; try (unhandled_tac; fail);
    destruct prefix; unhandled_tac.
Qed.

(** X20: neither [FileNotFoundError] nor [JSONDecodeError] ever ends
    [main]: the Extractor turns both into an empty result when the load
    raises them, and no other step of the script raises one.  A missing
    or malformed document is skipped, it does not stop the run. *)
Theorem load_errors_never_end_main (w : world) (a : args) (evs : list event)
  (e : exn) :
  main w a = (evs, Raise e) -> handled e = false.
Proof.
  intros H.
  destruct (generate_fio_filenames (PyInt (iterations a))
              (PyStr (output_filepath a))) as [files|e0] eqn:Hf.
  - rewrite (main_outcomes w a files Hf) in H.
    destruct (process_runs w acc0 0 files) as [evs0 [st|e0]] eqn:Hp.
    + destruct (all_metrics st) as [|kv am]; [discriminate|].
      destruct (aggregate st) as [rows|e0] eqn:Ha; [discriminate|].
      injection H as _ <-. exact (aggregate_unhandled st e0 Ha).
    + injection H as _ <-.
      apply (absorb_files_unhandled w files acc0 0).
      now rewrite <- process_runs_snd, Hp.
  - unfold main in H. rewrite Hf in H. cbn [lift mbind] in H.
    injection H as _ <-. exact (generate_fio_filenames_unhandled _ _ e0 Hf).
Qed.

Lemma load_errors_never_end_main_witness :
  exists evs e,
    main world_run2_scalar args3 = (evs, Raise e) /\ handled e = false.
Proof.
  destruct (main world_run2_scalar args3) as [evs [[]|e]] eqn:H;
    [vm_compute in H; discriminate|].
  exists evs, e. split; [reflexivity|].
  exact (load_errors_never_end_main _ _ _ _ H).
Defined.
